(** * sync-gcs-s3: the authenticated sync trigger of [rclone/server.go]

    A shallow embedding of the Go program: an HTTP middleware that checks a
    Google OIDC bearer token, the handler that asks rclone for a bucket sync,
    and the start-up sequence of [main].  Library calls the program makes
    (strings, jwt-go, jwx/jwk, net/http, rclone) appear either as small
    models of the library routine or as fields of a record of primitives the
    program is parametrised by. *)

From Stdlib Require Import String Ascii List ZArith Bool Lia DecimalString.
From stdpp Require Import base option list gmap strings.

Local Open Scope Z_scope.
Local Open Scope string_scope.
Local Open Scope list_scope.

(* ================================================================== *)
(** ** Package [strings] of the Go standard library                    *)
(* ================================================================== *)

Module strings.

(** [s[n:]] *)
Fixpoint sliceFrom (n : nat) (s : string) : string :=
  match n, s with
  | O, _ => s
  | S n', String _ s' => sliceFrom n' s'
  | S _, EmptyString => EmptyString
  end.

(** [s[:n]] *)
Definition sliceTo (n : nat) (s : string) : string := String.substring 0 n s.

(** [strings.Index]: byte offset of the first instance of [substr] in
    [s]; Go's [-1] is [None]. *)
Definition Index (s substr : string) : option nat := String.index 0 substr s.

(** [strings.Contains] *)
Definition Contains (s substr : string) : bool :=
  match Index s substr with Some _ => true | None => false end.

(** The loop of [genSplit] for a non-empty separator:
    [m := Index(s, sep); if m < 0 { break }; a[i] = s[:m]; s = s[m+len(sep):]]
    and finally [a[i] = s].  Go bounds the loop by [Count(s, sep)]; every
    round consumes at least one byte, so [len(s)] rounds are never
    exhausted before [Index] fails. *)
Fixpoint genSplit (rounds : nat) (s sep : string) : list string :=
  match rounds with
  | O => [s]
  | S rounds' =>
      match Index s sep with
      | None => [s]
      | Some m =>
          sliceTo m s :: genSplit rounds' (sliceFrom (m + String.length sep) s) sep
      end
  end.

(** [explode]: the empty separator splits after each byte (Go splits
    after each UTF-8 sequence; the program never passes an empty
    separator). *)
Fixpoint explode (s : string) : list string :=
  match s with
  | EmptyString => []
  | String c s' => String c EmptyString :: explode s'
  end.

(** [strings.Split] *)
Definition Split (s sep : string) : list string :=
  match sep with
  | EmptyString => explode s
  | _ => genSplit (String.length s) s sep
  end.

(** The code points for which [unicode.IsSpace] holds, in UTF-8. *)
Definition spaceRunes : list (list nat) :=
  [ [9]; [10]; [11]; [12]; [13]; [32];
    [194; 133]; [194; 160];
    [225; 154; 128];
    [226; 128; 128]; [226; 128; 129]; [226; 128; 130]; [226; 128; 131];
    [226; 128; 132]; [226; 128; 133]; [226; 128; 134]; [226; 128; 135];
    [226; 128; 136]; [226; 128; 137]; [226; 128; 138];
    [226; 128; 168]; [226; 128; 169]; [226; 128; 175];
    [226; 129; 159];
    [227; 128; 128] ]%nat.

Definition bytes (l : list nat) : string :=
  string_of_list_ascii (map ascii_of_nat l).

Definition reverse (s : string) : string :=
  string_of_list_ascii (rev (list_ascii_of_string s)).

(** Removes one leading instance of one of [pats], if there is one. *)
Fixpoint stripOne (pats : list string) (s : string) : option string :=
  match pats with
  | [] => None
  | p :: pats' =>
      if String.prefix p s then Some (sliceFrom (String.length p) s)
      else stripOne pats' s
  end.

Fixpoint trimLeft (pats : list string) (rounds : nat) (s : string) : string :=
  match rounds with
  | O => s
  | S rounds' =>
      match stripOne pats s with
      | Some s' => trimLeft pats rounds' s'
      | None => s
      end
  end.

(** [strings.TrimSpace]: leading, then trailing white space removed. *)
Definition TrimSpace (s : string) : string :=
  let l := trimLeft (map bytes spaceRunes) (String.length s) s in
  reverse (trimLeft (map (fun p => reverse (bytes p)) spaceRunes)
                    (String.length l) (reverse l)).

End strings.

(* ================================================================== *)
(** ** Go's [error] values                                             *)
(* ================================================================== *)

(** An [error] is either made by [errors.New] or is a jwt-go
    validation error with its wrapped error and its bit field. *)
#[warnings="-register-all"]
Inductive error : Type :=
| errors_New (text : string)
| ValidationError (Inner : option error) (Errors : Z).

(* ================================================================== *)
(** ** Package [jwt] (github.com/dgrijalva/jwt-go)                     *)
(* ================================================================== *)

Module jwt.

(** Bits of [ValidationError.Errors]. *)
Definition ValidationErrorMalformed : Z := Z.shiftl 1 0.
Definition ValidationErrorUnverifiable : Z := Z.shiftl 1 1.
Definition ValidationErrorSignatureInvalid : Z := Z.shiftl 1 2.
Definition ValidationErrorAudience : Z := Z.shiftl 1 3.
Definition ValidationErrorExpired : Z := Z.shiftl 1 4.
Definition ValidationErrorIssuedAt : Z := Z.shiftl 1 5.
Definition ValidationErrorIssuer : Z := Z.shiftl 1 6.
Definition ValidationErrorNotValidYet : Z := Z.shiftl 1 7.
Definition ValidationErrorId : Z := Z.shiftl 1 8.
Definition ValidationErrorClaimsInvalid : Z := Z.shiftl 1 9.

Record StandardClaims : Type := {
  Audience : string;
  ExpiresAt : Z;
  Id : string;
  IssuedAt : Z;
  Issuer : string;
  NotBefore : Z;
  Subject : string
}.

(** A value stored under a key of the JOSE header, a
    [map[string]interface{}] filled by the JSON decoder. *)
Inductive HeaderValue : Type :=
| JNull
| JBool (b : bool)
| JNumber (n : Z)
| JString (s : string)
| JArray
| JObject.

(** Verification key material, the [interface{}] a [Keyfunc] returns. *)
Inductive Key : Type :=
| RSAPublicKey (N E : Z)
| Octets (k : string).

(** [jwt.Token], over the type of the claims the caller supplied. *)
Record Token (C : Type) : Type := {
  Raw : string;
  Method : string;
  Header : gmap string HeaderValue;
  Claims : C;
  Signature : string;
  Valid : bool
}.
Arguments Raw {C} _.
Arguments Method {C} _.
Arguments Header {C} _.
Arguments Claims {C} _.
Arguments Signature {C} _.
Arguments Valid {C} _.

(** The interface [jwt.Claims]: one method, [Valid() error].  The clock
    ([jwt.TimeFunc().Unix()]) is an explicit argument. *)
Class ClaimsI (C : Type) : Type := ClaimsValid : Z -> C -> option error.

Definition verifyExp (exp now : Z) (required : bool) : bool :=
  if (exp =? 0)%Z then negb required else (now <=? exp)%Z.

Definition verifyIat (iat now : Z) (required : bool) : bool :=
  if (iat =? 0)%Z then negb required else (iat <=? now)%Z.

Definition verifyNbf (nbf now : Z) (required : bool) : bool :=
  if (nbf =? 0)%Z then negb required else (nbf <=? now)%Z.

(** What [StandardClaims.Valid] accumulates in [vErr.Errors]. *)
Definition claimsErrors (now : Z) (c : StandardClaims) : Z :=
  let e0 := 0 in
  let e1 := if verifyExp (ExpiresAt c) now false then e0
            else Z.lor e0 ValidationErrorExpired in
  let e2 := if verifyIat (IssuedAt c) now false then e1
            else Z.lor e1 ValidationErrorIssuedAt in
  if verifyNbf (NotBefore c) now false then e2
  else Z.lor e2 ValidationErrorNotValidYet.

(** The last [vErr.Inner] that [StandardClaims.Valid] assigns (the
    expiry message without the duration Go appends to it). *)
Definition claimsInner (now : Z) (c : StandardClaims) : option error :=
  if negb (verifyNbf (NotBefore c) now false)
  then Some (errors_New "token is not valid yet")
  else if negb (verifyIat (IssuedAt c) now false)
  then Some (errors_New "Token used before issued")
  else if negb (verifyExp (ExpiresAt c) now false)
  then Some (errors_New "token is expired")
  else None.

(** [StandardClaims.Valid]: expiry, issued-at and not-before against the
    clock; nothing else (no audience, no issuer). *)
Definition StandardClaims_Valid (now : Z) (c : StandardClaims) : option error :=
  if (claimsErrors now c =? 0)%Z then None
  else Some (ValidationError (claimsInner now c) (claimsErrors now c)).

#[export] Instance StandardClaims_ClaimsI : ClaimsI StandardClaims :=
  StandardClaims_Valid.

(** What the parser needs from outside the program: decoding of the three
    dot-separated segments ([ParseUnverified]: base64url, JSON, signing
    method lookup), the signature check of the token's signing method and
    the clock. *)
Record Parser (C : Type) : Type := {
  ParseUnverified : string -> (Token C * (string * string * string)) + error;
  Verify : string -> string -> string -> Key -> option error;
  TimeFunc : Z
}.
Arguments ParseUnverified {C} _ _.
Arguments Verify {C} _ _ _ _ _.
Arguments TimeFunc {C} _.

Definition Keyfunc (C : Type) : Type := Token C -> Key + error.

Definition withSignature {C} (t : Token C) (sig : string) : Token C :=
  {| Raw := Raw t; Method := Method t; Header := Header t;
     Claims := Claims t; Signature := sig; Valid := Valid t |}.

Definition withValid {C} (t : Token C) (v : bool) : Token C :=
  {| Raw := Raw t; Method := Method t; Header := Header t;
     Claims := Claims t; Signature := Signature t; Valid := v |}.

(** An error that already is a validation error is kept; any other is
    wrapped in one that carries [flag]. *)
Definition asValidationError (flag : Z) (err : error) : error :=
  match err with
  | ValidationError _ _ => err
  | errors_New _ => ValidationError (Some err) flag
  end.

Definition errorsOf (err : error) : Z :=
  match err with
  | ValidationError _ bits => bits
  | errors_New _ => 0
  end.

Definition innerOf (err : error) : option error :=
  match err with
  | ValidationError inner _ => inner
  | errors_New _ => None
  end.

(** [Parser.ParseWithClaims] with the default parser (no method
    whitelist, claims validation on): decode, look the key up, validate
    the claims, verify the signature; the token is [Valid] and the error
    nil only when no error bit was set. *)
Definition ParseWithClaims {C} `{ClaimsI C} (p : Parser C)
    (tokenString : string) (keyFunc : Keyfunc C)
  : option (Token C) * option error :=
  match ParseUnverified p tokenString with
  | inr err => (None, Some err)   (* whatever token comes with it, no caller reads it *)
  | inl (token, (p0, p1, p2)) =>
      match keyFunc token with
      | inr err =>
          (Some token, Some (asValidationError ValidationErrorUnverifiable err))
      | inl key =>
          let vErr :=
            match ClaimsValid (TimeFunc p) (Claims token) with
            | Some err => asValidationError ValidationErrorClaimsInvalid err
            | None => ValidationError None 0
            end in
          let token := withSignature token p2 in
          let vErr :=
            match Verify p (Method token) (p0 +:+ "." +:+ p1) p2 key with
            | Some err =>
                ValidationError (Some err)
                  (Z.lor (errorsOf vErr) ValidationErrorSignatureInvalid)
            | None => vErr
            end in
          if (errorsOf vErr =? 0)%Z
          then (Some (withValid token true), None)
          else (Some token, Some vErr)
      end
  end.

End jwt.

(* ================================================================== *)
(** ** Package [jwk] (github.com/lestrrat/go-jwx/jwk)                  *)
(* ================================================================== *)

Module jwk.

(** A [jwk.Key] as the program sees it: its [KeyID()] and the result of
    its [Materialize()]. *)
Record Key : Type := {
  KeyID : string;
  Materialize : jwt.Key + error
}.

(** [jwk.Set] ([Set] is reserved in Rocq). *)
Record KeySet : Type := { Keys : list Key }.

(** [Set.LookupKeyID]: every key of the set whose id is [kid], in order. *)
Definition LookupKeyID (s : KeySet) (kid : string) : list Key :=
  List.filter (fun k => String.eqb (KeyID k) kid) (Keys s).

End jwk.

(* ================================================================== *)
(** ** The program's own types and constants                           *)
(* ================================================================== *)

Record gcpIdentityDoc : Type := {
  Email : string;
  EmailVerified : bool;
  AuthorizedParty : string;
  StandardClaims : jwt.StandardClaims
}.

(** The composite literal [gcpIdentityDoc{}]: every field at its zero value. *)
Definition gcpIdentityDoc_zero : gcpIdentityDoc :=
  {| Email := ""; EmailVerified := false; AuthorizedParty := "";
     StandardClaims :=
       {| jwt.Audience := ""; jwt.ExpiresAt := 0; jwt.Id := "";
          jwt.IssuedAt := 0; jwt.Issuer := ""; jwt.NotBefore := 0;
          jwt.Subject := "" |} |}.

(** [gcpIdentityDoc] embeds [jwt.StandardClaims] and so inherits its
    [Valid] method. *)
#[export] Instance gcpIdentityDoc_ClaimsI : jwt.ClaimsI gcpIdentityDoc :=
  fun now c => jwt.StandardClaims_Valid now (StandardClaims c).

Definition contextKey : Type := string.

Definition jwksURL : string := "https://www.googleapis.com/oauth2/v3/certs".
Definition contextEventKey : contextKey := "event".

(** The package-level variables as they stand while requests are served:
    the five environment values read at initialisation and the key set
    [main] stores before it starts the server. *)
Record Globals : Type := {
  jwtSet : jwk.KeySet;
  gs : string;
  s3 : string;
  awsAccessKey : string;
  awsSecretAcessKey : string;
  awsRegion : string;
  myAudience : string
}.

(* ================================================================== *)
(** ** [context], [net/http], rclone's [fs] and [sync]                 *)
(* ================================================================== *)

(** A request context: the one the server created for the request, or a
    child made by [context.WithValue]. *)
Inductive Context : Type :=
| requestContext (id : nat)
| context_WithValue (parent : Context) (key : contextKey) (val : gcpIdentityDoc).

Record Request : Type := {
  Method : string;
  Path : string;
  Header : gmap string (list string);
  Ctx : Context
}.

(** [Header.Get]: the first value stored under the key, or [""]. *)
Definition Header_Get (h : gmap string (list string)) (key : string) : string :=
  match h !! key with
  | Some (v :: _) => v
  | _ => ""
  end.

(** [r.WithContext(ctx)] *)
Definition WithContext (r : Request) (ctx : Context) : Request :=
  {| Method := Method r; Path := Path r; Header := Header r; Ctx := ctx |}.

(** What a handler has made of its [http.ResponseWriter]: the header map,
    the status line ([0] until the header is written) and the body bytes. *)
Record ResponseWriter : Type := {
  respHeader : gmap string (list string);
  statusCode : Z;
  body : string
}.

Definition http_StatusOK : Z := 200.
Definition http_StatusMovedPermanently : Z := 301.
Definition http_StatusUnauthorized : Z := 401.
Definition http_StatusNotFound : Z := 404.
Definition http_StatusMethodNotAllowed : Z := 405.
Definition http_StatusInternalServerError : Z := 500.
Definition http_MethodGet : string := "GET".

(** [http.StatusText] on the codes above; any other code this program
    never asks for. *)
Definition http_StatusText (code : Z) : string :=
  if (code =? 200)%Z then "OK"
  else if (code =? 301)%Z then "Moved Permanently"
  else if (code =? 401)%Z then "Unauthorized"
  else if (code =? 404)%Z then "Not Found"
  else if (code =? 405)%Z then "Method Not Allowed"
  else if (code =? 500)%Z then "Internal Server Error"
  else "".

(** An rclone remote, as returned by [fs.NewFs]. *)
Record Fs : Type := { fsName : string; fsRoot : string }.

(** rclone's configuration store, (section, key) to value, as held in
    memory.  [fs.ConfigFileSet] sets the value there; what it does besides
    with a configuration file found on disk is not modelled; the claims
    read only the three credential keys of the [s3] section. *)
Definition ConfigFileSet (section key value : string)
    (cfg : gmap (string * string) string) : gmap (string * string) string :=
  <[ (section, key) := value ]> cfg.

(** The sync engine, opaque to the program: building a remote from a
    path under the current configuration, and the sync itself.  The last
    argument of [Sync] is the boolean of its signature (rclone names it
    [copyEmptySrcDirs]). *)
Record Engine : Type := {
  NewFs : gmap (string * string) string -> string -> Fs + error;
  Sync : Context -> Fs -> Fs -> bool -> option error
}.

(* ================================================================== *)
(** ** Effects: response, trace of calls, panics                       *)
(* ================================================================== *)

(** An operand of a [log] call. *)
Inductive Arg : Type :=
| AString (s : string)
| AError (e : error).

Inductive Event : Type :=
| Log (format : string) (args : list Arg)
| NewFsCall (path : string)
| SyncCall (ctx : Context) (fdst fsrc : Fs) (flag : bool)
| ServeHTTP (r : Request).

Record World : Type := {
  response : ResponseWriter;
  trace : list Event
}.

Inductive Result (A : Type) : Type :=
| Returned (a : A)
| Panicked (msg : string).
Arguments Returned {A} _.
Arguments Panicked {A} _.

(** A Go computation: runs in a world, returns or panics. *)
Definition Go (A : Type) : Type := World -> Result A * World.

Definition ret {A} (a : A) : Go A := fun w => (Returned a, w).

Definition bind {A B} (m : Go A) (k : A -> Go B) : Go B :=
  fun w =>
    match m w with
    | (Returned a, w') => k a w'
    | (Panicked msg, w') => (Panicked msg, w')
    end.

Definition panic {A} (msg : string) : Go A := fun w => (Panicked msg, w).

Declare Scope go_scope.
Delimit Scope go_scope with go.
Notation "x <- c1 ;; c2" := (bind c1 (fun x => c2))
  (at level 100, c1 at next level, right associativity) : go_scope.
Notation "c1 ;; c2" := (bind c1 (fun _ => c2))
  (at level 100, right associativity) : go_scope.

Definition emit (e : Event) : Go unit :=
  fun w => (Returned tt, {| response := response w; trace := trace w ++ [e] |}).

Definition modifyResponse (f : ResponseWriter -> ResponseWriter) : Go unit :=
  fun w => (Returned tt, {| response := f (response w); trace := trace w |}).

Definition Handler : Type := Request -> Go unit.

(** A fresh response and an empty trace: the world a request starts in. *)
Definition newWorld : World :=
  {| response := {| respHeader := ∅; statusCode := 0; body := "" |};
     trace := [] |}.

Definition LF : string := String (ascii_of_nat 10) EmptyString.

(** [w.Header().Set(key, value)] *)
Definition Header_Set (key value : string) : Go unit :=
  modifyResponse (fun rw =>
    {| respHeader := <[ key := [value] ]> (respHeader rw);
       statusCode := statusCode rw; body := body rw |}).

(** [w.WriteHeader(code)]: the first call fixes the status. *)
Definition WriteHeader (code : Z) : Go unit :=
  modifyResponse (fun rw =>
    if (statusCode rw =? 0)%Z
    then {| respHeader := respHeader rw; statusCode := code; body := body rw |}
    else rw).

(** [w.Write(data)]: writes the header with 200 if none was written. *)
Definition Write (data : string) : Go unit :=
  (WriteHeader http_StatusOK ;;
   modifyResponse (fun rw =>
     {| respHeader := respHeader rw; statusCode := statusCode rw;
        body := body rw +:+ data |}))%go.

(** [http.Error(w, error, code)] *)
Definition http_Error (msg : string) (code : Z) : Go unit :=
  (Header_Set "Content-Type" "text/plain; charset=utf-8" ;;
   Header_Set "X-Content-Type-Options" "nosniff" ;;
   WriteHeader code ;;
   Write (msg +:+ LF))%go.

Definition fmt_Fprint (s : string) : Go unit := Write s.

Definition log_Printf (format : string) (args : list Arg) : Go unit :=
  emit (Log format args).

Definition log_Println (line : string) : Go unit := emit (Log line []).

Definition decimal (n : nat) : string := NilEmpty.string_of_uint (Nat.to_uint n).

(** [a[i]] on a slice: a run-time panic when [i] is out of range. *)
Definition index_slice (a : list string) (i : nat) : Go string :=
  match a !! i with
  | Some x => ret x
  | None =>
      panic ("runtime error: index out of range [" +:+ decimal i +:+
             "] with length " +:+ decimal (length a))
  end.

(** A route registered on the router:
    [router.Methods(m).Path(p).HandlerFunc(h)]. *)
Record Route : Type := {
  routeMethods : list string;
  routePath : string;
  routeHandler : Handler
}.

Record Server : Type := {
  Addr : string;
  ServerHandler : Handler
}.

(* ================================================================== *)
(** ** The program: [rclone/server.go]                                 *)
(* ================================================================== *)

Section Program.

(** The jwt-go parser primitives, the sync engine, the package-level
    variables and rclone's configuration store. *)
Variable P : jwt.Parser gcpIdentityDoc.
Variable E : Engine.
Variable G : Globals.
Variable config : gmap (string * string) string.

Definition getKey (token : jwt.Token gcpIdentityDoc) : jwt.Key + error :=
  match jwt.Header token !! "kid" with
  | Some (jwt.JString keyID) =>
      match jwk.LookupKeyID (jwtSet G) keyID with
      | [key] => jwk.Materialize key
      | _ => inr (errors_New "unable to find key")
      end
  | _ => inr (errors_New "expecting JWT header to have string kid")
  end.

(** The type assertion on [token.Claims] always holds: the claims are
    the [&gcpIdentityDoc{}] handed to the parser. *)
Definition verifyGoogleIDToken (ctx : Context) (aud : string) (rawToken : string)
  : Go (gcpIdentityDoc * option error) :=
  (match jwt.ParseWithClaims P rawToken getKey with
   | (_, Some err) =>
       log_Printf "Error parsing JWT %v" [AError err] ;;
       ret (gcpIdentityDoc_zero, Some err)
   | (None, None) => panic "runtime error: invalid memory address or nil pointer dereference"
   | (Some token, None) =>
       if jwt.Valid token
       then
         let claims := jwt.Claims token in
         log_Printf "OIDC doc has Audience [%s]   Issuer [%v]"
           [AString (jwt.Audience (StandardClaims claims));
            AString (jwt.Issuer (StandardClaims claims))] ;;
         ret (claims, None)
       else ret (gcpIdentityDoc_zero, Some (errors_New "Error parsing JWT Claims"))
   end)%go.

Definition authMiddleware (h : Handler) : Handler := fun r =>
  (log_Println "/authMiddleware called" ;;
   let authHeader := Header_Get (Header r) "Authorization" in
   if String.eqb authHeader ""
   then http_Error (http_StatusText http_StatusUnauthorized) http_StatusUnauthorized
   else
     let splitToken := strings.Split authHeader "Bearer" in
     if (0 <? length splitToken)%nat
     then
       raw <- index_slice splitToken 1 ;;
       let tok := strings.TrimSpace raw in
       res <- verifyGoogleIDToken (Ctx r) (myAudience G) tok ;;
       match res with
       | (_, Some _) =>
           http_Error (http_StatusText http_StatusUnauthorized) http_StatusUnauthorized
       | (idDoc, None) =>
           log_Printf "Authenticated email: %v" [AString (Email idDoc)] ;;
           let ctx := context_WithValue (Ctx r) contextEventKey idDoc in
           let r' := WithContext r ctx in
           emit (ServeHTTP r') ;;
           h r'
       end
     else
       http_Error (http_StatusText http_StatusUnauthorized) http_StatusUnauthorized)%go.

Definition fs_NewFs (path : string) : Go (Fs + error) :=
  (emit (NewFsCall path) ;; ret (NewFs E config path))%go.

Definition sync_Sync (ctx : Context) (fdst fsrc : Fs) (flag : bool) : Go (option error) :=
  (emit (SyncCall ctx fdst fsrc flag) ;; ret (Sync E ctx fdst fsrc flag))%go.

Definition defaulthandler : Handler := fun r =>
  (src <- fs_NewFs ("gs:" +:+ gs G) ;;
   match src with
   | inr _ =>
       http_Error (http_StatusText http_StatusInternalServerError)
                  http_StatusInternalServerError
   | inl fsrc =>
       dst <- fs_NewFs ("s3:" +:+ s3 G) ;;
       match dst with
       | inr _ =>
           http_Error (http_StatusText http_StatusInternalServerError)
                      http_StatusInternalServerError
       | inl fdest =>
           err <- sync_Sync (Ctx r) fdest fsrc false ;;
           match err with
           | Some _ =>
               http_Error (http_StatusText http_StatusInternalServerError)
                          http_StatusInternalServerError
           | None => fmt_Fprint "ok"
           end
       end
   end)%go.

End Program.

(** How [main] ends: a fatal log line and exit, or the call of
    [server.ListenAndServe] with the state the requests will see.  (The
    call of [http2.ConfigureServer] changes nothing of what is modelled.) *)
Inductive Startup : Type :=
| log_Fatal (args : list Arg)
| ListenAndServe (g : Globals) (config : gmap (string * string) string) (server : Server).

Section Main.

(** The process environment, the JWKS fetch, the router of gorilla/mux
    (serving a list of routes), and the libraries of [Program]. *)
Variable Getenv : string -> string.
Variable FetchHTTP : string -> jwk.KeySet + error.
Variable mux_Router : list Route -> Handler.
Variable P : jwt.Parser gcpIdentityDoc.
Variable E : Engine.
Variable config0 : gmap (string * string) string.

Definition main : Startup :=
  (* package-level initialisers *)
  let gs := Getenv "GS" in
  let s3 := Getenv "S3" in
  let awsAccessKey := Getenv "AWS_ACCESS_KEY_ID" in
  let awsSecretAcessKey := Getenv "AWS_SECRET_ACCESS_ID" in
  let awsRegion := Getenv "AWS_REGION" in
  let myAudience := Getenv "AUDIENCE" in
  match FetchHTTP jwksURL with
  | inr err => log_Fatal [AString "Unable to load JWK Set: "; AError err]
  | inl set =>
      if String.eqb myAudience "" || String.eqb gs "" || String.eqb s3 ""
      then log_Fatal [AString "Audience, gs, s3 values must be set"]
      else
        let c := ConfigFileSet "gs" "type" "google cloud storage" config0 in
        let c := ConfigFileSet "gs" "bucket_policy_only" "true" c in
        let c := ConfigFileSet "s3" "type" "s3" c in
        let c := ConfigFileSet "s3" "provider" "AWS" c in
        let c := ConfigFileSet "s3" "env_auth" "false" c in
        let c := ConfigFileSet "s3" "access_key_id" awsAccessKey c in
        let c := ConfigFileSet "s3" "secret_access_key" awsSecretAcessKey c in
        let c := ConfigFileSet "s3" "region" awsRegion c in
        let c := ConfigFileSet "s3" "acl" "private" c in
        let c := ConfigFileSet "s3" "bucket_acl" "private" c in
        let g := {| jwtSet := set; gs := gs; s3 := s3;
                    awsAccessKey := awsAccessKey;
                    awsSecretAcessKey := awsSecretAcessKey;
                    awsRegion := awsRegion; myAudience := myAudience |} in
        let router :=
          mux_Router [ {| routeMethods := [http_MethodGet]; routePath := "/";
                          routeHandler := defaulthandler E g c |} ] in
        ListenAndServe g c
          {| Addr := ":8080"; ServerHandler := authMiddleware P g router |}
  end.

End Main.

(* ================================================================== *)
(** ** Vocabulary of the statements                                    *)
(* ================================================================== *)

(** The response [http.Error] leaves on a fresh writer. *)
Definition errorResponse (code : Z) : ResponseWriter :=
  {| respHeader :=
       <[ "X-Content-Type-Options" := ["nosniff"] ]>
         (<[ "Content-Type" := ["text/plain; charset=utf-8"] ]> ∅);
     statusCode := code;
     body := http_StatusText code +:+ LF |}.

(** The response of a handler that only printed ["ok"]. *)
Definition okResponse : ResponseWriter :=
  {| respHeader := ∅; statusCode := http_StatusOK; body := "ok" |}.

Definition isServeHTTP (e : Event) : bool :=
  match e with ServeHTTP _ => true | _ => false end.

Definition isSyncCall (e : Event) : bool :=
  match e with SyncCall _ _ _ _ => true | _ => false end.

(** Number of times control was handed to the wrapped handler. *)
Definition downstreamCalls (t : list Event) : nat := length (List.filter isServeHTTP t).

(** Number of syncs requested from the engine. *)
Definition syncCalls (t : list Event) : nat := length (List.filter isSyncCall t).

(** The world [w] after the events [es]. *)
Definition logged (w : World) (es : list Event) : World :=
  {| response := response w; trace := trace w ++ es |}.

(** The world [w] after the events [es], with the response [rw]. *)
Definition responded (rw : ResponseWriter) (w : World) (es : list Event) : World :=
  {| response := rw; trace := trace w ++ es |}.

Definition calledLine : Event := Log "/authMiddleware called" [].

(** The request the middleware forwards once [idDoc] is verified. *)
Definition forwarded (r : Request) (idDoc : gcpIdentityDoc) : Request :=
  WithContext r (context_WithValue (Ctx r) contextEventKey idDoc).

(** The engine calls of one run of the handler, by the engine's answers. *)
Definition handlerEvents (E : Engine) (G : Globals)
    (config : gmap (string * string) string) (r : Request) : list Event :=
  match NewFs E config ("gs:" +:+ gs G) with
  | inr _ => [NewFsCall ("gs:" +:+ gs G)]
  | inl fsrc =>
      match NewFs E config ("s3:" +:+ s3 G) with
      | inr _ => [NewFsCall ("gs:" +:+ gs G); NewFsCall ("s3:" +:+ s3 G)]
      | inl fdest =>
          [NewFsCall ("gs:" +:+ gs G); NewFsCall ("s3:" +:+ s3 G);
           SyncCall (Ctx r) fdest fsrc false]
      end
  end.

(** The response of one run of the handler on a fresh writer, by the
    engine's answers. *)
Definition handlerResponse (E : Engine) (G : Globals)
    (config : gmap (string * string) string) (r : Request) : ResponseWriter :=
  match NewFs E config ("gs:" +:+ gs G) with
  | inr _ => errorResponse http_StatusInternalServerError
  | inl fsrc =>
      match NewFs E config ("s3:" +:+ s3 G) with
      | inr _ => errorResponse http_StatusInternalServerError
      | inl fdest =>
          match Sync E (Ctx r) fdest fsrc false with
          | Some _ => errorResponse http_StatusInternalServerError
          | None => okResponse
          end
      end
  end.

(** The events of the middleware on a run that verifies [idDoc]. *)
Definition acceptedEvents (r : Request) (idDoc : gcpIdentityDoc) : list Event :=
  [calledLine;
   Log "OIDC doc has Audience [%s]   Issuer [%v]"
     [AString (jwt.Audience (StandardClaims idDoc));
      AString (jwt.Issuer (StandardClaims idDoc))];
   Log "Authenticated email: %v" [AString (Email idDoc)];
   ServeHTTP (forwarded r idDoc)].

(** A router that, given the one route [main] registers and a [GET /],
    calls the route's handler once and does nothing else of its own.  The
    request it passes may differ from the one it got in its context (the
    router stores the match there); method, path and headers are kept. *)
Definition serves_root (mux_Router : list Route -> Handler) : Prop :=
  forall (h : Handler) (r : Request) (w : World),
    Method r = http_MethodGet ->
    Path r = "/" ->
    exists r',
      Method r' = Method r /\ Path r' = Path r /\ Header r' = Header r /\
      mux_Router [ {| routeMethods := [http_MethodGet]; routePath := "/";
                      routeHandler := h |} ] r w = h r' w.

(** What [jwk.FetchHTTP] guarantees of the set it returns: each key was
    parsed into usable key material, so [Materialize] succeeds on it. *)
Definition materialisable (s : jwk.KeySet) : Prop :=
  forall key, In key (jwk.Keys s) -> exists k, jwk.Materialize key = inl k.

Definition Authorization (r : Request) : string :=
  Header_Get (Header r) "Authorization".

Section Checks.

Variable P : jwt.Parser gcpIdentityDoc.
Variable G : Globals.

Definition signingString (parts : string * string * string) : string :=
  let '(p0, p1, _) := parts in p0 +:+ "." +:+ p1.

Definition signatureOf (parts : string * string * string) : string :=
  let '(_, _, p2) := parts in p2.

(** The token string cannot be decoded. *)
Definition fails_parsing (raw : string) : Prop :=
  exists e, jwt.ParseUnverified P raw = inr e.

(** The token decodes, its key is found, the signature does not verify. *)
Definition fails_signature (raw : string) : Prop :=
  exists tok parts key e,
    jwt.ParseUnverified P raw = inl (tok, parts) /\
    getKey G tok = inl key /\
    jwt.Verify P (jwt.Method tok) (signingString parts) (signatureOf parts) key = Some e.

(** The token decodes and carries an expiry that lies in the past. *)
Definition is_expired (raw : string) : Prop :=
  exists tok parts,
    jwt.ParseUnverified P raw = inl (tok, parts) /\
    jwt.ExpiresAt (StandardClaims (jwt.Claims tok)) <> 0 /\
    jwt.ExpiresAt (StandardClaims (jwt.Claims tok)) < jwt.TimeFunc P.

(** The token decodes and carries a not-before that lies in the future. *)
Definition is_not_yet_valid (raw : string) : Prop :=
  exists tok parts,
    jwt.ParseUnverified P raw = inl (tok, parts) /\
    jwt.NotBefore (StandardClaims (jwt.Claims tok)) <> 0 /\
    jwt.TimeFunc P < jwt.NotBefore (StandardClaims (jwt.Claims tok)).

(** The token decodes and its expiry, whatever it is, lies before the clock. *)
Definition is_past_expiry (raw : string) : Prop :=
  exists tok parts,
    jwt.ParseUnverified P raw = inl (tok, parts) /\
    jwt.ExpiresAt (StandardClaims (jwt.Claims tok)) < jwt.TimeFunc P.

(** The token decodes and the clock lies before its not-before. *)
Definition is_before_not_before (raw : string) : Prop :=
  exists tok parts,
    jwt.ParseUnverified P raw = inl (tok, parts) /\
    jwt.TimeFunc P < jwt.NotBefore (StandardClaims (jwt.Claims tok)).

(** The three time claims, each absent (zero) or satisfied by the clock. *)
Definition time_valid (now : Z) (c : jwt.StandardClaims) : Prop :=
  (jwt.ExpiresAt c = 0 \/ now <= jwt.ExpiresAt c) /\
  (jwt.IssuedAt c = 0 \/ jwt.IssuedAt c <= now) /\
  (jwt.NotBefore c = 0 \/ jwt.NotBefore c <= now).

(** The token decodes to [tok], its key is found, its time claims hold
    and its signature verifies. *)
Definition passes_all_checks (raw : string) (tok : jwt.Token gcpIdentityDoc) : Prop :=
  exists parts key,
    jwt.ParseUnverified P raw = inl (tok, parts) /\
    getKey G tok = inl key /\
    time_valid (jwt.TimeFunc P) (StandardClaims (jwt.Claims tok)) /\
    jwt.Verify P (jwt.Method tok) (signingString parts) (signatureOf parts) key = None.

End Checks.

(** The key-lookup claim read literally: key material comes back exactly
    when the header has a string [kid] that one key of the set matches. *)
Definition key_iff_unique_match (G : Globals) (tok : jwt.Token gcpIdentityDoc) : Prop :=
  (exists k, getKey G tok = inl k) <->
  (exists kid, jwt.Header tok !! "kid" = Some (jwt.JString kid) /\
               length (jwk.LookupKeyID (jwtSet G) kid) = 1%nat).

Definition isServing (s : Startup) : bool :=
  match s with ListenAndServe _ _ _ => true | log_Fatal _ => false end.

(* ================================================================== *)
(** ** What a successful sync does to the remotes                      *)
(* ================================================================== *)

Module rclone.

(** The objects of a remote, name to content, in a store of all remotes
    keyed by a remote's name and root. *)
Definition contents (st : gmap (string * string) (gmap string string)) (f : Fs)
  : gmap string string :=
  default ∅ (st !! (fsName f, fsRoot f)).

(** [sync.Sync(ctx, fdst, fsrc, copyEmptySrcDirs)] on success: the
    destination is made identical to the source, so objects of the
    destination that the source does not have are deleted (the copy that
    deletes nothing is another function, [sync.CopyDir]).  The boolean
    says whether empty source directories are created; it has no part in
    which objects the destination ends with. *)
Definition Sync_effect (fdst fsrc : Fs) (copyEmptySrcDirs : bool)
    (st : gmap (string * string) (gmap string string))
  : gmap (string * string) (gmap string string) :=
  <[ (fsName fdst, fsRoot fdst) := contents st fsrc ]> st.

End rclone.

(** The remotes after the syncs a trace requested, each having succeeded. *)
Definition eventEffect (e : Event) (st : gmap (string * string) (gmap string string))
  : gmap (string * string) (gmap string string) :=
  match e with
  | SyncCall _ fdst fsrc flag => rclone.Sync_effect fdst fsrc flag st
  | _ => st
  end.

Definition storeAfter (t : list Event) (st : gmap (string * string) (gmap string string))
  : gmap (string * string) (gmap string string) :=
  fold_left (fun st' e => eventEffect e st') t st.

(* ================================================================== *)
(** ** Fixtures: one concrete instance of every parameter              *)
(* ================================================================== *)

Module fixture.

Definition claims (email aud : string) (exp nbf : Z) : gcpIdentityDoc :=
  {| Email := email; EmailVerified := true; AuthorizedParty := "";
     StandardClaims :=
       {| jwt.Audience := aud; jwt.ExpiresAt := exp; jwt.Id := "";
          jwt.IssuedAt := 0; jwt.Issuer := "https://accounts.google.com";
          jwt.NotBefore := nbf; jwt.Subject := "" |} |}.

Definition token (raw : string) (hdr : gmap string jwt.HeaderValue)
    (c : gcpIdentityDoc) : jwt.Token gcpIdentityDoc :=
  {| jwt.Raw := raw; jwt.Method := "RS256"; jwt.Header := hdr;
     jwt.Claims := c; jwt.Signature := ""; jwt.Valid := false |}.

Definition kid (k : string) : gmap string jwt.HeaderValue :=
  <[ "kid" := jwt.JString k ]> (<[ "alg" := jwt.JString "RS256" ]> ∅).

Definition scheduler : string := "scheduler@example.iam.gserviceaccount.com".

(** A decoder that knows a handful of token strings; the clock reads
    1000; a signature is good when it names the key. *)
Definition decode (raw : string)
  : (jwt.Token gcpIdentityDoc * (string * string * string)) + error :=
  if String.eqb raw "hdr1.good.sig-k1"
  then inl (token raw (kid "K1") (claims scheduler "https://elsewhere" 2000 0),
            ("hdr1", "good", "sig-k1"))
  else if String.eqb raw "hdr1.expired.sig-k1"
  then inl (token raw (kid "K1") (claims scheduler "https://rsync.run.app" 500 0),
            ("hdr1", "expired", "sig-k1"))
  else if String.eqb raw "hdr1.early.sig-k1"
  then inl (token raw (kid "K1") (claims scheduler "https://rsync.run.app" 2000 1500),
            ("hdr1", "early", "sig-k1"))
  else if String.eqb raw "hdr1.good.forged"
  then inl (token raw (kid "K1") (claims scheduler "https://rsync.run.app" 2000 0),
            ("hdr1", "good", "forged"))
  else if String.eqb raw "hdr9.good.sig-k9"
  then inl (token raw (kid "K9") (claims scheduler "https://rsync.run.app" 2000 0),
            ("hdr9", "good", "sig-k9"))
  else if String.eqb raw "hdr3.good.sig-k3"
  then inl (token raw (kid "K3") (claims scheduler "https://rsync.run.app" 2000 0),
            ("hdr3", "good", "sig-k3"))
  else if String.eqb raw "hdr0.good.sig-k1"
  then inl (token raw (<[ "alg" := jwt.JString "RS256" ]> ∅)
              (claims scheduler "https://rsync.run.app" 2000 0),
            ("hdr0", "good", "sig-k1"))
  else inr (ValidationError
              (Some (errors_New "token contains an invalid number of segments"))
              jwt.ValidationErrorMalformed).

Definition verify (alg signingString signature : string) (key : jwt.Key)
  : option error :=
  match key with
  | jwt.Octets k =>
      if String.eqb signature ("sig-" +:+ k) then None
      else Some (errors_New "crypto/rsa: verification error")
  | jwt.RSAPublicKey _ _ => Some (errors_New "crypto/rsa: verification error")
  end.

Definition parser : jwt.Parser gcpIdentityDoc :=
  {| jwt.ParseUnverified := decode; jwt.Verify := verify; jwt.TimeFunc := 1000 |}.

(** One usable key [K1], a key [K3] that cannot be materialised, and two
    keys that share the id [K2]. *)
Definition keys : jwk.KeySet :=
  {| jwk.Keys :=
       [ {| jwk.KeyID := "K1"; jwk.Materialize := inl (jwt.Octets "k1") |};
         {| jwk.KeyID := "K2"; jwk.Materialize := inl (jwt.Octets "k2a") |};
         {| jwk.KeyID := "K3";
            jwk.Materialize := inr (errors_New "key has no rsa.PublicKey associated with it") |};
         {| jwk.KeyID := "K2"; jwk.Materialize := inl (jwt.Octets "k2b") |} ] |}.

Definition globals : Globals :=
  {| jwtSet := keys; gs := "backups"; s3 := "mirror";
     awsAccessKey := "AKIA"; awsSecretAcessKey := "s3cr3t";
     awsRegion := "us-east-1"; myAudience := "https://rsync.run.app" |}.

Definition request (method path : string) (auth : list string) : Request :=
  {| Method := method; Path := path;
     Header := <[ "Authorization" := auth ]> ∅;
     Ctx := requestContext 7 |}.

Definition gsFs : Fs := {| fsName := "gs"; fsRoot := "backups" |}.
Definition s3Fs : Fs := {| fsName := "s3"; fsRoot := "mirror" |}.

(** An engine whose remotes exist and whose sync succeeds. *)
Definition engine : Engine :=
  {| NewFs := fun _ path =>
       if String.eqb path "gs:backups" then inl gsFs
       else if String.eqb path "s3:mirror" then inl s3Fs
       else inr (errors_New "didn't find section in config file");
     Sync := fun _ _ _ _ => None |}.

(** An engine whose sync fails. *)
Definition engineSyncFails : Engine :=
  {| NewFs := NewFs engine;
     Sync := fun _ _ _ _ => Some (errors_New "failed to copy") |}.

(** An engine that cannot build the destination remote. *)
Definition engineNoDest : Engine :=
  {| NewFs := fun _ path =>
       if String.eqb path "gs:backups" then inl gsFs
       else inr (errors_New "EmptyStaticCreds: static credentials are empty");
     Sync := fun _ _ _ _ => None |}.

(** An engine that cannot build the source remote. *)
Definition engineNoSource : Engine :=
  {| NewFs := fun _ _ => inr (errors_New "didn't find section in config file");
     Sync := fun _ _ _ _ => None |}.

(** A router that serves the first route whose path is the request's:
    its handler when the method is listed, 405 when not, and 404 when no
    path matches. *)
Fixpoint router (routes : list Route) : Handler := fun r =>
  match routes with
  | [] => http_Error "404 page not found" http_StatusNotFound
  | rt :: routes' =>
      if String.eqb (routePath rt) (Path r)
      then if existsb (String.eqb (Method r)) (routeMethods rt)
           then routeHandler rt r
           else http_Error "" http_StatusMethodNotAllowed
      else router routes' r
  end.

Definition getenv (vars : list (string * string)) (name : string) : string :=
  match List.find (fun kv => String.eqb (fst kv) name) vars with
  | Some kv => snd kv
  | None => ""
  end.

Definition envFull : string -> string :=
  getenv [ ("GS", "backups"); ("S3", "mirror"); ("AUDIENCE", "https://rsync.run.app");
           ("AWS_ACCESS_KEY_ID", "AKIA"); ("AWS_SECRET_ACCESS_ID", "s3cr3t");
           ("AWS_REGION", "us-east-1") ].

(** The identifiers are set, the destination credentials are not. *)
Definition envNoCredentials : string -> string :=
  getenv [ ("GS", "backups"); ("S3", "mirror"); ("AUDIENCE", "https://rsync.run.app") ].

Definition envNoSource : string -> string :=
  getenv [ ("S3", "mirror"); ("AUDIENCE", "https://rsync.run.app");
           ("AWS_ACCESS_KEY_ID", "AKIA"); ("AWS_SECRET_ACCESS_ID", "s3cr3t");
           ("AWS_REGION", "us-east-1") ].

Definition fetchOK (url : string) : jwk.KeySet + error := inl keys.

Definition fetchFails (url : string) : jwk.KeySet + error :=
  inr (errors_New "failed to fetch remote JWK").

(** [parser] with one more token string: signed with [K1], its expiry
    claim at 0, the first second of the epoch. *)
Definition decodeEpoch (raw : string)
  : (jwt.Token gcpIdentityDoc * (string * string * string)) + error :=
  if String.eqb raw "hdr1.epoch.sig-k1"
  then inl (token raw (kid "K1") (claims scheduler "https://rsync.run.app" 0 0),
            ("hdr1", "epoch", "sig-k1"))
  else decode raw.

Definition parserEpoch : jwt.Parser gcpIdentityDoc :=
  {| jwt.ParseUnverified := decodeEpoch; jwt.Verify := verify; jwt.TimeFunc := 1000 |}.

(** A key set as fetched: every key materialises; two share the id [K2]. *)
Definition keysFetched : jwk.KeySet :=
  {| jwk.Keys :=
       [ {| jwk.KeyID := "K1"; jwk.Materialize := inl (jwt.Octets "k1") |};
         {| jwk.KeyID := "K2"; jwk.Materialize := inl (jwt.Octets "k2a") |};
         {| jwk.KeyID := "K2"; jwk.Materialize := inl (jwt.Octets "k2b") |} ] |}.

Definition globalsFetched : Globals :=
  {| jwtSet := keysFetched; gs := "backups"; s3 := "mirror";
     awsAccessKey := "AKIA"; awsSecretAcessKey := "s3cr3t";
     awsRegion := "us-east-1"; myAudience := "https://rsync.run.app" |}.

(** The source holds one object; the destination holds an older copy of
    it and an object the source does not have. *)
Definition store : gmap (string * string) (gmap string string) :=
  <[ ("gs", "backups") := <[ "db.sql" := "v2" ]> ∅ ]>
    (<[ ("s3", "mirror") := <[ "old.sql" := "x" ]> (<[ "db.sql" := "v1" ]> ∅) ]> ∅).

End fixture.

(* ================================================================== *)
(** ** Facts about [strings.Split]                                     *)
(* ================================================================== *)

Lemma Index_empty_string (sep : string) :
  sep <> "" -> strings.Index "" sep = None.
Proof.
  intros Hsep. unfold strings.Index. destruct sep; [congruence | reflexivity].
Qed.

Lemma Index_some_nonempty (s sep : string) (m : nat) :
  sep <> "" -> strings.Index s sep = Some m -> (0 < String.length s)%nat.
Proof.
  intros Hsep Hm. destruct s.
  - rewrite Index_empty_string in Hm by assumption. discriminate.
  - simpl. lia.
Qed.

Lemma length_sliceFrom (n : nat) (s : string) :
  String.length (strings.sliceFrom n s) = (String.length s - n)%nat.
Proof.
  revert s. induction n as [|n IH]; intros s; simpl.
  - lia.
  - destruct s; simpl; [reflexivity | apply IH].
Qed.

Lemma genSplit_nonempty (n : nat) (s sep : string) :
  exists t rest, strings.genSplit n s sep = t :: rest.
Proof.
  destruct n; simpl.
  - eauto.
  - destruct (strings.Index s sep); eauto.
Qed.

(** More rounds than [len(s)] change nothing: the bound on the loop is
    never what stops it. *)
Lemma genSplit_rounds (sep : string) :
  sep <> "" ->
  forall n m s,
    (String.length s <= n)%nat -> (String.length s <= m)%nat ->
    strings.genSplit n s sep = strings.genSplit m s sep.
Proof.
  intros Hsep. induction n as [|n IH]; intros m s Hn Hm.
  - assert (s = "") as -> by (destruct s; simpl in *; [reflexivity | lia]).
    destruct m; simpl; [reflexivity|].
    rewrite Index_empty_string by assumption. reflexivity.
  - destruct m as [|m].
    + assert (s = "") as -> by (destruct s; simpl in *; [reflexivity | lia]).
      simpl. rewrite Index_empty_string by assumption. reflexivity.
    + simpl. destruct (strings.Index s sep) as [i|] eqn:Hi; [|reflexivity].
      f_equal. pose proof (Index_some_nonempty _ _ _ Hsep Hi) as Hpos.
      assert (0 < String.length sep)%nat as Hl
        by (destruct sep; simpl; [congruence | lia]).
      apply IH; rewrite length_sliceFrom; lia.
Qed.

(** A string without the separator is returned whole, as the only piece. *)
Lemma Split_without_sep (s sep : string) :
  sep <> "" -> strings.Index s sep = None -> strings.Split s sep = [s].
Proof.
  intros Hsep Hi. unfold strings.Split.
  destruct sep as [|c sep']; [congruence|].
  destruct (String.length s); simpl; [reflexivity|].
  rewrite Hi. reflexivity.
Qed.

(** A string with the separator gives at least two pieces. *)
Lemma Split_with_sep (s sep : string) (m : nat) :
  sep <> "" -> strings.Index s sep = Some m ->
  exists t rest, strings.Split s sep = strings.sliceTo m s :: t :: rest.
Proof.
  intros Hsep Hi. unfold strings.Split.
  destruct sep as [|c sep']; [congruence|].
  pose proof (Index_some_nonempty _ _ _ Hsep Hi) as Hpos.
  destruct (String.length s) as [|n]; [lia|].
  simpl. rewrite Hi.
  destruct (genSplit_nonempty n
              (strings.sliceFrom (m + S (String.length sep')) s) (String c sep'))
    as (t & rest & ->).
  eauto.
Qed.

(** The guard [len(splitToken) > 0] of the middleware never fails. *)
Lemma Split_length_positive (s sep : string) :
  sep <> "" -> (0 <? length (strings.Split s sep))%nat = true.
Proof.
  intros Hsep. unfold strings.Split.
  destruct sep as [|c sep']; [congruence|].
  destruct (genSplit_nonempty (String.length s) s (String c sep')) as (t & rest & ->).
  reflexivity.
Qed.

Lemma Contains_false_Index (s sep : string) :
  strings.Contains s sep = false <-> strings.Index s sep = None.
Proof.
  unfold strings.Contains. destruct (strings.Index s sep); split; congruence.
Qed.

Example Split_bearer_header :
  strings.Split "Bearer hdr.claims.sig" "Bearer" = [""; " hdr.claims.sig"].
Proof. reflexivity. Qed.

Example Split_marker_twice :
  strings.Split "xBearer  aBearer" "Bearer" = ["x"; "  a"; ""].
Proof. reflexivity. Qed.

Example Split_basic_header : strings.Split "Basic xyz" "Bearer" = ["Basic xyz"].
Proof. reflexivity. Qed.

(* ================================================================== *)
(** ** Facts about [strings.TrimSpace]                                 *)
(* ================================================================== *)

Lemma prefix_length (p s : string) :
  String.prefix p s = true -> (String.length p <= String.length s)%nat.
Proof.
  revert s. induction p as [|c p IH]; intros s H; simpl.
  - lia.
  - destruct s as [|d s]; simpl in H; [discriminate|].
    destruct (ascii_dec c d); [|discriminate].
    simpl. specialize (IH s H). lia.
Qed.

Lemma stripOne_shorter (pats : list string) (s s' : string) :
  Forall (fun p => p <> "") pats ->
  strings.stripOne pats s = Some s' ->
  (String.length s' < String.length s)%nat.
Proof.
  intros Hne. induction Hne as [|p pats Hp _ IH]; simpl; [discriminate|].
  destruct (String.prefix p s) eqn:Hpre; [|exact IH].
  intros [= <-]. rewrite length_sliceFrom.
  apply prefix_length in Hpre.
  assert (0 < String.length p)%nat by (destruct p; simpl; [congruence | lia]).
  lia.
Qed.

(** The bound on the trimming loop is never what stops it. *)
Lemma trimLeft_rounds (pats : list string) :
  Forall (fun p => p <> "") pats ->
  forall n m s,
    (String.length s <= n)%nat -> (String.length s <= m)%nat ->
    strings.trimLeft pats n s = strings.trimLeft pats m s.
Proof.
  intros Hne. induction n as [|n IH]; intros m s Hn Hm.
  - destruct m as [|m]; simpl; [reflexivity|].
    destruct (strings.stripOne pats s) as [s'|] eqn:Hs; [|reflexivity].
    apply (stripOne_shorter _ _ _ Hne) in Hs. lia.
  - destruct m as [|m]; simpl.
    + destruct (strings.stripOne pats s) as [s'|] eqn:Hs; [|reflexivity].
      apply (stripOne_shorter _ _ _ Hne) in Hs. lia.
    + destruct (strings.stripOne pats s) as [s'|] eqn:Hs; [|reflexivity].
      pose proof (stripOne_shorter _ _ _ Hne Hs). apply IH; lia.
Qed.

Lemma spaceRunes_nonempty :
  Forall (fun p => p <> "") (map strings.bytes strings.spaceRunes).
Proof.
  unfold strings.spaceRunes. cbn [map].
  repeat (constructor; [discriminate|]). constructor.
Qed.

Example TrimSpace_token :
  strings.TrimSpace (" hdr.claims.sig" +:+ LF) = "hdr.claims.sig".
Proof. reflexivity. Qed.

Example TrimSpace_inner_space_kept :
  strings.TrimSpace (strings.bytes [9; 32; 97; 32; 98; 194; 160; 13; 10]%nat) = "a b".
Proof. reflexivity. Qed.

(* ================================================================== *)
(** ** Facts about the jwt-go parser                                   *)
(* ================================================================== *)

Lemma verifyExp_true (exp now : Z) :
  jwt.verifyExp exp now false = true <-> exp = 0 \/ now <= exp.
Proof.
  unfold jwt.verifyExp. destruct (Z.eqb_spec exp 0); simpl.
  - intuition.
  - rewrite Z.leb_le. intuition.
Qed.

Lemma verifyIat_true (iat now : Z) :
  jwt.verifyIat iat now false = true <-> iat = 0 \/ iat <= now.
Proof.
  unfold jwt.verifyIat. destruct (Z.eqb_spec iat 0); simpl.
  - intuition.
  - rewrite Z.leb_le. intuition.
Qed.

Lemma verifyNbf_true (nbf now : Z) :
  jwt.verifyNbf nbf now false = true <-> nbf = 0 \/ nbf <= now.
Proof.
  unfold jwt.verifyNbf. destruct (Z.eqb_spec nbf 0); simpl.
  - intuition.
  - rewrite Z.leb_le. intuition.
Qed.

(** No error bit is set exactly when the three time claims hold. *)
Lemma claimsErrors_zero (now : Z) (c : jwt.StandardClaims) :
  jwt.claimsErrors now c = 0 <-> time_valid now c.
Proof.
  unfold time_valid.
  rewrite <- verifyExp_true, <- verifyIat_true, <- verifyNbf_true.
  unfold jwt.claimsErrors.
  destruct (jwt.verifyExp _ _ _), (jwt.verifyIat _ _ _), (jwt.verifyNbf _ _ _);
    vm_compute; intuition congruence.
Qed.

Lemma StandardClaims_Valid_nil (now : Z) (c : jwt.StandardClaims) :
  jwt.StandardClaims_Valid now c = None <-> time_valid now c.
Proof.
  rewrite <- claimsErrors_zero. unfold jwt.StandardClaims_Valid.
  destruct (Z.eqb_spec (jwt.claimsErrors now c) 0); split; congruence.
Qed.

(** A validation error produced by the claims check has a bit set. *)
Lemma StandardClaims_Valid_bits (now : Z) (c : jwt.StandardClaims) (e : error) :
  jwt.StandardClaims_Valid now c = Some e ->
  jwt.errorsOf e <> 0 /\ jwt.asValidationError jwt.ValidationErrorClaimsInvalid e = e.
Proof.
  unfold jwt.StandardClaims_Valid.
  destruct (Z.eqb_spec (jwt.claimsErrors now c) 0); [discriminate|].
  intros [= <-]. simpl. auto.
Qed.

Lemma lor_SignatureInvalid_nonzero (bits : Z) :
  Z.lor bits jwt.ValidationErrorSignatureInvalid <> 0.
Proof.
  rewrite Z.lor_eq_0_iff. intros [_ H]. vm_compute in H. discriminate.
Qed.

Section ParserFacts.

Variable P : jwt.Parser gcpIdentityDoc.
Variable keyFunc : jwt.Keyfunc gcpIdentityDoc.

(** Decoding failure is returned as it is. *)
Lemma ParseWithClaims_malformed (raw : string) (e : error) :
  jwt.ParseUnverified P raw = inr e ->
  jwt.ParseWithClaims P raw keyFunc = (None, Some e).
Proof. intros H. unfold jwt.ParseWithClaims. rewrite H. reflexivity. Qed.

(** A key function error ends the parse with an error. *)
Lemma ParseWithClaims_no_key (raw : string) tok parts (e : error) :
  jwt.ParseUnverified P raw = inl (tok, parts) ->
  keyFunc tok = inr e ->
  jwt.ParseWithClaims P raw keyFunc =
    (Some tok, Some (jwt.asValidationError jwt.ValidationErrorUnverifiable e)).
Proof.
  intros H K. unfold jwt.ParseWithClaims. rewrite H.
  destruct parts as [[p0 p1] p2]. rewrite K. reflexivity.
Qed.

(** With the key found, the parse succeeds exactly when the time claims
    hold and the signature verifies. *)
Lemma ParseWithClaims_checked (raw : string) tok parts key :
  jwt.ParseUnverified P raw = inl (tok, parts) ->
  keyFunc tok = inl key ->
  (time_valid (jwt.TimeFunc P) (StandardClaims (jwt.Claims tok)) /\
   jwt.Verify P (jwt.Method tok) (signingString parts) (signatureOf parts) key = None /\
   jwt.ParseWithClaims P raw keyFunc =
     (Some (jwt.withValid (jwt.withSignature tok (signatureOf parts)) true), None))
  \/
  ((~ time_valid (jwt.TimeFunc P) (StandardClaims (jwt.Claims tok)) \/
    jwt.Verify P (jwt.Method tok) (signingString parts) (signatureOf parts) key <> None) /\
   exists e, jwt.ParseWithClaims P raw keyFunc =
               (Some (jwt.withSignature tok (signatureOf parts)), Some e)).
Proof.
  intros H K. unfold jwt.ParseWithClaims. rewrite H.
  destruct parts as [[p0 p1] p2]. rewrite K. cbn [signingString signatureOf].
  unfold jwt.ClaimsValid, gcpIdentityDoc_ClaimsI.
  cbn [jwt.Method jwt.withSignature jwt.Claims].
  destruct (jwt.StandardClaims_Valid (jwt.TimeFunc P) (StandardClaims (jwt.Claims tok)))
    as [ce|] eqn:Hc.
  - right. split.
    + left. rewrite <- StandardClaims_Valid_nil. congruence.
    + destruct (StandardClaims_Valid_bits _ _ _ Hc) as [Hbits ->].
      destruct (jwt.Verify P (jwt.Method tok) (p0 +:+ "." +:+ p1) p2 key) as [ve|].
      * cbn [jwt.errorsOf].
        destruct (Z.eqb_spec (Z.lor (jwt.errorsOf ce) jwt.ValidationErrorSignatureInvalid) 0)
          as [Hz|_]; [exfalso; exact (lor_SignatureInvalid_nonzero _ Hz)|].
        eauto.
      * destruct (Z.eqb_spec (jwt.errorsOf ce) 0); [contradiction|]. eauto.
  - apply StandardClaims_Valid_nil in Hc.
    destruct (jwt.Verify P (jwt.Method tok) (p0 +:+ "." +:+ p1) p2 key) as [ve|] eqn:Hv.
    + right. split; [right; congruence|].
      cbn [jwt.errorsOf].
      destruct (Z.eqb_spec (Z.lor 0 jwt.ValidationErrorSignatureInvalid) 0)
        as [Hz|_]; [exfalso; exact (lor_SignatureInvalid_nonzero _ Hz)|].
      eauto.
    + left. split; [exact Hc|]. split; reflexivity.
Qed.

(** A nil error always comes with a token, and that token is [Valid]:
    the nil dereference and the trailing error of the verifier are dead. *)
Lemma ParseWithClaims_nil_error (raw : string) t :
  jwt.ParseWithClaims P raw keyFunc = (t, None) ->
  exists tok, t = Some tok /\ jwt.Valid tok = true.
Proof.
  destruct (jwt.ParseUnverified P raw) as [[tok parts]|e] eqn:H.
  - destruct (keyFunc tok) as [key|e] eqn:K.
    + destruct (ParseWithClaims_checked raw tok parts key H K)
        as [(_ & _ & ->) | (_ & e & ->)]; intros [= <-]. eauto.
    + rewrite (ParseWithClaims_no_key raw tok parts e H K). discriminate.
  - rewrite (ParseWithClaims_malformed raw e H). discriminate.
Qed.

End ParserFacts.

(* ================================================================== *)
(** ** The verifier and the middleware, case by case                   *)
(* ================================================================== *)

Section GateFacts.

Variable P : jwt.Parser gcpIdentityDoc.
Variable G : Globals.

Lemma verify_rejects ctx aud raw t e w :
  jwt.ParseWithClaims P raw (getKey G) = (t, Some e) ->
  verifyGoogleIDToken P G ctx aud raw w =
    (Returned (gcpIdentityDoc_zero, Some e),
     logged w [Log "Error parsing JWT %v" [AError e]]).
Proof.
  intros H. unfold verifyGoogleIDToken. rewrite H. destruct t; reflexivity.
Qed.

Lemma verify_accepts ctx aud raw tok w :
  jwt.ParseWithClaims P raw (getKey G) = (Some tok, None) ->
  jwt.Valid tok = true ->
  verifyGoogleIDToken P G ctx aud raw w =
    (Returned (jwt.Claims tok, None),
     logged w [Log "OIDC doc has Audience [%s]   Issuer [%v]"
                 [AString (jwt.Audience (StandardClaims (jwt.Claims tok)));
                  AString (jwt.Issuer (StandardClaims (jwt.Claims tok)))]]).
Proof.
  intros H V. unfold verifyGoogleIDToken. rewrite H, V. reflexivity.
Qed.

Lemma Split_two_nonempty (s pre t : string) (rest : list string) :
  strings.Split s "Bearer" = pre :: t :: rest -> String.eqb s "" = false.
Proof.
  intros H. destruct s; [discriminate H | reflexivity].
Qed.

(** The header has the marker and the token after it is refused. *)
Lemma auth_rejects_token h r pre t rest tk e :
  strings.Split (Authorization r) "Bearer" = pre :: t :: rest ->
  jwt.ParseWithClaims P (strings.TrimSpace t) (getKey G) = (tk, Some e) ->
  authMiddleware P G h r newWorld =
    (Returned tt,
     responded (errorResponse http_StatusUnauthorized) newWorld
       [calledLine; Log "Error parsing JWT %v" [AError e]]).
Proof.
  intros Hs Hp. unfold authMiddleware. fold (Authorization r).
  rewrite (Split_two_nonempty _ _ _ _ Hs), Hs.
  cbn [length Nat.ltb Nat.leb index_slice lookup list_lookup].
  unfold bind at 1. cbn [log_Println emit newWorld trace response app].
  unfold bind at 1. cbn [ret].
  unfold bind at 1.
  rewrite (verify_rejects _ _ _ _ _ _ Hp).
  reflexivity.
Qed.

(** The header has the marker and the token after it is verified. *)
Lemma auth_accepts_token h r pre t rest tok :
  strings.Split (Authorization r) "Bearer" = pre :: t :: rest ->
  jwt.ParseWithClaims P (strings.TrimSpace t) (getKey G) = (Some tok, None) ->
  jwt.Valid tok = true ->
  authMiddleware P G h r newWorld =
    h (forwarded r (jwt.Claims tok))
      (logged newWorld
         [calledLine;
          Log "OIDC doc has Audience [%s]   Issuer [%v]"
            [AString (jwt.Audience (StandardClaims (jwt.Claims tok)));
             AString (jwt.Issuer (StandardClaims (jwt.Claims tok)))];
          Log "Authenticated email: %v" [AString (Email (jwt.Claims tok))];
          ServeHTTP (forwarded r (jwt.Claims tok))]).
Proof.
  intros Hs Hp Hv. unfold authMiddleware. fold (Authorization r).
  rewrite (Split_two_nonempty _ _ _ _ Hs), Hs.
  cbn [length Nat.ltb Nat.leb index_slice lookup list_lookup].
  unfold bind at 1. cbn [log_Println emit newWorld trace response app].
  unfold bind at 1. cbn [ret].
  unfold bind at 1.
  rewrite (verify_accepts _ _ _ _ _ Hp Hv).
  reflexivity.
Qed.

(** A header that is there but lacks the marker: the split has one
    piece, the guard passes, and indexing it at 1 panics. *)
Lemma auth_without_marker_panics h r :
  Authorization r <> "" ->
  strings.Contains (Authorization r) "Bearer" = false ->
  authMiddleware P G h r newWorld =
    (Panicked "runtime error: index out of range [1] with length 1",
     logged newWorld [calledLine]).
Proof.
  intros Hne Hc. apply Contains_false_Index in Hc.
  unfold authMiddleware. fold (Authorization r).
  rewrite (proj2 (String.eqb_neq _ _) Hne).
  rewrite (Split_without_sep _ "Bearer") by (congruence || exact Hc).
  reflexivity.
Qed.

(** No header at all. *)
Lemma auth_without_header h r :
  Authorization r = "" ->
  authMiddleware P G h r newWorld =
    (Returned tt,
     responded (errorResponse http_StatusUnauthorized) newWorld [calledLine]).
Proof.
  intros He. unfold authMiddleware. fold (Authorization r). rewrite He.
  reflexivity.
Qed.

End GateFacts.

(* ================================================================== *)
(** ** Refused and accepted tokens                                     *)
(* ================================================================== *)

Section TokenFacts.

Variable P : jwt.Parser gcpIdentityDoc.
Variable G : Globals.

(** Every listed cause of failure makes the parser report an error. *)
Lemma rejected_reports_error (raw : string) :
  fails_parsing P raw \/ fails_signature P G raw \/
  is_expired P raw \/ is_not_yet_valid P raw ->
  exists t e, jwt.ParseWithClaims P raw (getKey G) = (t, Some e).
Proof.
  intros [(e & H) | [(tok & parts & key & e & H & K & V)
                    | [(tok & parts & H & Hnz & Hlt) | (tok & parts & H & Hnz & Hlt)]]].
  - rewrite (ParseWithClaims_malformed P _ raw e H). eauto.
  - destruct (ParseWithClaims_checked P (getKey G) raw tok parts key H K)
      as [(_ & V' & _) | (_ & e' & ->)]; [congruence | eauto].
  - destruct (getKey G tok) as [key|e] eqn:K.
    + destruct (ParseWithClaims_checked P (getKey G) raw tok parts key H K)
        as [((Hexp & _) & _) | (_ & e' & ->)]; [lia | eauto].
    + rewrite (ParseWithClaims_no_key P _ raw tok parts e H K). eauto.
  - destruct (getKey G tok) as [key|e] eqn:K.
    + destruct (ParseWithClaims_checked P (getKey G) raw tok parts key H K)
        as [((_ & _ & Hnbf) & _) | (_ & e' & ->)]; [lia | eauto].
    + rewrite (ParseWithClaims_no_key P _ raw tok parts e H K). eauto.
Qed.

(** A token that passes every check is returned valid, claims untouched. *)
Lemma accepted_parse (raw : string) tok :
  passes_all_checks P G raw tok ->
  exists tok', jwt.ParseWithClaims P raw (getKey G) = (Some tok', None) /\
               jwt.Valid tok' = true /\ jwt.Claims tok' = jwt.Claims tok.
Proof.
  intros (parts & key & H & K & T & V).
  destruct (ParseWithClaims_checked P (getKey G) raw tok parts key H K)
    as [(_ & _ & ->) | ([T' | V'] & _)]; [| contradiction | contradiction].
  eexists. split; [reflexivity|]. split; reflexivity.
Qed.

(** Conversely, a nil error means every check passed. *)
Lemma parse_ok_passes (raw : string) t :
  jwt.ParseWithClaims P raw (getKey G) = (t, None) ->
  exists tok tok', passes_all_checks P G raw tok /\ t = Some tok' /\
                   jwt.Valid tok' = true /\ jwt.Claims tok' = jwt.Claims tok.
Proof.
  intros Hp.
  destruct (jwt.ParseUnverified P raw) as [[tok parts]|e] eqn:H.
  - destruct (getKey G tok) as [key|e] eqn:K.
    + destruct (ParseWithClaims_checked P (getKey G) raw tok parts key H K)
        as [(T & V & Heq) | (_ & e & Heq)]; rewrite Heq in Hp; [|discriminate].
      injection Hp as <-. exists tok. eexists.
      split; [exists parts, key; auto|]. split; [reflexivity|]. split; reflexivity.
    + rewrite (ParseWithClaims_no_key P _ raw tok parts e H K) in Hp. discriminate.
  - rewrite (ParseWithClaims_malformed P _ raw e H) in Hp. discriminate.
Qed.

End TokenFacts.

(* ================================================================== *)
(** ** The claims                                                      *)
(* ================================================================== *)

(** C1.  The claim asks that an [Authorization] header that is present but
    lacks the marker ["Bearer"] be answered with 401 and without a crash,
    the indexing of the split value staying in bounds.  On the header
    ["Basic xyz"] the program does otherwise: the split has exactly one
    piece, the guard [len(splitToken) > 0] lets it through, and
    [splitToken[1]] panics; no status is written, and nothing depends on
    the wrapped handler. *)
Theorem C1_basic_scheme_panics :
  forall (P : jwt.Parser gcpIdentityDoc) (G : Globals) (h : Handler)
         (method path : string) (ctx : Context),
    let r := {| Method := method; Path := path;
                Header := <[ "Authorization" := ["Basic xyz"] ]> ∅; Ctx := ctx |} in
    length (strings.Split (Authorization r) "Bearer") = 1%nat /\
    authMiddleware P G h r newWorld =
      (Panicked "runtime error: index out of range [1] with length 1",
       logged newWorld [calledLine]) /\
    statusCode (response (snd (authMiddleware P G h r newWorld))) = 0 /\
    body (response (snd (authMiddleware P G h r newWorld))) = "".
Proof.
  intros P G h method path ctx r.
  assert (authMiddleware P G h r newWorld =
            (Panicked "runtime error: index out of range [1] with length 1",
             logged newWorld [calledLine])) as Hrun.
  { apply auth_without_marker_panics; [discriminate | reflexivity]. }
  split; [reflexivity|]. split; [exact Hrun|]. rewrite Hrun. split; reflexivity.
Qed.

(** C2.  The verifier does not look at its expected-audience argument: two
    audiences give the same result, logs included, on every token; and the
    whole middleware behaves the same whatever the configured audience is. *)
Theorem C2_audience_ignored :
  forall (P : jwt.Parser gcpIdentityDoc) (G : Globals) (ctx : Context)
         (aud1 aud2 rawToken : string) (w : World),
    verifyGoogleIDToken P G ctx aud1 rawToken w =
    verifyGoogleIDToken P G ctx aud2 rawToken w /\
    forall (h : Handler) (r : Request),
      authMiddleware P G h r w =
      authMiddleware P
        {| jwtSet := jwtSet G; gs := gs G; s3 := s3 G;
           awsAccessKey := awsAccessKey G;
           awsSecretAcessKey := awsSecretAcessKey G;
           awsRegion := awsRegion G; myAudience := aud2 |} h r w.
Proof.
  intros. split; reflexivity.
Qed.

(** A token whose audience claim is not the configured audience is
    accepted all the same. *)
Example audience_mismatch_accepted :
  jwt.Audience (StandardClaims (fixture.claims fixture.scheduler "https://elsewhere" 2000 0))
    <> myAudience fixture.globals /\
  fst (verifyGoogleIDToken fixture.parser fixture.globals (requestContext 7)
         (myAudience fixture.globals) "hdr1.good.sig-k1" newWorld) =
    Returned (fixture.claims fixture.scheduler "https://elsewhere" 2000 0, None).
Proof.
  split; [discriminate | reflexivity].
Qed.

(** C3.  A request without an [Authorization] header gets 401 with the
    status phrase as its body, and control never reaches the wrapped
    handler, whichever handler that is. *)
Theorem C3_missing_header_unauthorized :
  forall (P : jwt.Parser gcpIdentityDoc) (G : Globals) (h : Handler) (r : Request),
    Authorization r = "" ->
    exists w',
      authMiddleware P G h r newWorld = (Returned tt, w') /\
      statusCode (response w') = http_StatusUnauthorized /\
      body (response w') = "Unauthorized" +:+ LF /\
      downstreamCalls (trace w') = 0%nat /\
      syncCalls (trace w') = 0%nat /\
      trace w' = [calledLine].
Proof.
  intros P G h r He. eexists. split; [apply auth_without_header; exact He|].
  repeat split; reflexivity.
Qed.

Lemma C3_missing_header_witness :
  exists w',
    authMiddleware fixture.parser fixture.globals
      (defaulthandler fixture.engine fixture.globals ∅)
      {| Method := "GET"; Path := "/"; Header := ∅; Ctx := requestContext 7 |}
      newWorld = (Returned tt, w') /\
    statusCode (response w') = 401 /\
    body (response w') = "Unauthorized" +:+ LF /\
    downstreamCalls (trace w') = 0%nat /\
    syncCalls (trace w') = 0%nat /\
    trace w' = [calledLine].
Proof.
  apply (C3_missing_header_unauthorized fixture.parser fixture.globals
           (defaulthandler fixture.engine fixture.globals ∅)
           {| Method := "GET"; Path := "/"; Header := ∅; Ctx := requestContext 7 |}).
  reflexivity.
Defined.

(** With a clock at or after the epoch, a not-before that the clock has
    not reached is a non-zero one: for not-before the zero convention
    takes nothing from "not yet valid". *)
Lemma before_not_before_not_yet_valid (P : jwt.Parser gcpIdentityDoc) (raw : string) :
  0 <= jwt.TimeFunc P -> is_before_not_before P raw -> is_not_yet_valid P raw.
Proof.
  intros Hclock (tok & parts & Hp & Hlt). exists tok, parts.
  split; [exact Hp|]. split; [lia | exact Hlt].
Qed.

(** C4, read literally, fails: the token below decodes with its expiry at
    0, which lies before the clock (1000), and the verifier returns its
    claims with a nil error; a zero expiry counts as no expiry. *)
Lemma C4_counterexample :
  is_past_expiry fixture.parserEpoch "hdr1.epoch.sig-k1" /\
  fst (verifyGoogleIDToken fixture.parserEpoch fixture.globals (requestContext 7)
         "https://rsync.run.app" "hdr1.epoch.sig-k1" newWorld) =
    Returned (fixture.claims fixture.scheduler "https://rsync.run.app" 0 0, None) /\
  fst (authMiddleware fixture.parserEpoch fixture.globals
         (defaulthandler fixture.engine fixture.globals ∅)
         (fixture.request "GET" "/" ["Bearer hdr1.epoch.sig-k1"]) newWorld) =
    Returned tt /\
  statusCode (response (snd (authMiddleware fixture.parserEpoch fixture.globals
         (defaulthandler fixture.engine fixture.globals ∅)
         (fixture.request "GET" "/" ["Bearer hdr1.epoch.sig-k1"]) newWorld))) = 200.
Proof.
  split.
  - eexists. eexists. split; reflexivity.
  - split; [reflexivity|]. split; reflexivity.
Qed.

(** C4, amended.  A token that fails decoding or signature verification,
    or that carries a non-zero expiry in the past or a non-zero not-before
    in the future, makes the verifier return an error with the zero
    identity document, and the middleware, given a header that carries
    this token after the marker, answers 401 without calling the wrapped
    handler.  (A zero expiry or not-before counts as absent and is not
    checked.)  A token that passes every check makes the verifier return
    the decoded document, whose email is the token's email claim. *)
Theorem C4_verification_outcomes :
  forall (P : jwt.Parser gcpIdentityDoc) (G : Globals) (ctx : Context)
         (aud rawToken : string) (w : World),
    (fails_parsing P rawToken \/ fails_signature P G rawToken \/
     is_expired P rawToken \/ is_not_yet_valid P rawToken ->
     exists e,
       verifyGoogleIDToken P G ctx aud rawToken w =
         (Returned (gcpIdentityDoc_zero, Some e),
          logged w [Log "Error parsing JWT %v" [AError e]]) /\
       forall (h : Handler) (r : Request) pre t rest,
         strings.Split (Authorization r) "Bearer" = pre :: t :: rest ->
         strings.TrimSpace t = rawToken ->
         exists w',
           authMiddleware P G h r newWorld = (Returned tt, w') /\
           response w' = errorResponse http_StatusUnauthorized /\
           statusCode (response w') = 401 /\
           body (response w') = "Unauthorized" +:+ LF /\
           downstreamCalls (trace w') = 0%nat)
    /\
    (forall tok, passes_all_checks P G rawToken tok ->
       exists doc w',
         verifyGoogleIDToken P G ctx aud rawToken w = (Returned (doc, None), w') /\
         doc = jwt.Claims tok /\
         Email doc = Email (jwt.Claims tok)).
Proof.
  intros P G ctx aud rawToken w. split.
  - intros Hrej. destruct (rejected_reports_error P G rawToken Hrej) as (tk & e & Hp).
    exists e. split; [exact (verify_rejects P G ctx aud rawToken tk e w Hp)|].
    intros h r pre t rest Hs Ht. subst rawToken.
    eexists. split; [exact (auth_rejects_token P G h r pre t rest tk e Hs Hp)|].
    repeat split; reflexivity.
  - intros tok Hok. destruct (accepted_parse P G rawToken tok Hok) as (tok' & Hp & Hv & Hc).
    exists (jwt.Claims tok'). eexists.
    split; [exact (verify_accepts P G ctx aud rawToken tok' w Hp Hv)|].
    rewrite Hc. split; reflexivity.
Qed.

Lemma C4_verification_witness :
  (exists e,
     verifyGoogleIDToken fixture.parser fixture.globals (requestContext 7)
       "https://rsync.run.app" "hdr1.expired.sig-k1" newWorld =
       (Returned (gcpIdentityDoc_zero, Some e),
        logged newWorld [Log "Error parsing JWT %v" [AError e]]) /\
     exists w',
       authMiddleware fixture.parser fixture.globals
         (defaulthandler fixture.engine fixture.globals ∅)
         (fixture.request "GET" "/" ["Bearer hdr1.expired.sig-k1"]) newWorld =
         (Returned tt, w') /\
       statusCode (response w') = 401 /\
       downstreamCalls (trace w') = 0%nat)
  /\
  (exists doc w',
     verifyGoogleIDToken fixture.parser fixture.globals (requestContext 7)
       "https://rsync.run.app" "hdr1.good.sig-k1" newWorld = (Returned (doc, None), w') /\
     Email doc = fixture.scheduler).
Proof.
  split.
  - destruct (C4_verification_outcomes fixture.parser fixture.globals (requestContext 7)
                "https://rsync.run.app" "hdr1.expired.sig-k1" newWorld) as [Hrej _].
    destruct Hrej as (e & Hv & Hgate).
    { right. right. left. eexists. eexists.
      split; [reflexivity|]. split; [discriminate | reflexivity]. }
    exists e. split; [exact Hv|].
    destruct (Hgate (defaulthandler fixture.engine fixture.globals ∅)
                (fixture.request "GET" "/" ["Bearer hdr1.expired.sig-k1"])
                "" " hdr1.expired.sig-k1" [] eq_refl eq_refl)
      as (w' & Hrun & _ & Hst & _ & Hd).
    exists w'. auto.
  - destruct (C4_verification_outcomes fixture.parser fixture.globals (requestContext 7)
                "https://rsync.run.app" "hdr1.good.sig-k1" newWorld) as [_ Hok].
    destruct (Hok (fixture.token "hdr1.good.sig-k1" (fixture.kid "K1")
                     (fixture.claims fixture.scheduler "https://elsewhere" 2000 0)))
      as (doc & w' & Hv & Hdoc & _).
    { exists ("hdr1", "good", "sig-k1"), (jwt.Octets "k1").
      split; [reflexivity|]. split; [reflexivity|].
      split; [|reflexivity].
      split; [right; discriminate|]. split; left; reflexivity. }
    exists doc, w'. split; [exact Hv|]. rewrite Hdoc. reflexivity.
Defined.

(** What [getKey] returns, for any key set: the material of the one key
    that has the header's [kid], when materialising it succeeds; an error
    for a [kid] that is missing or not a string, or that no key or more
    than one key has; and an error from [getKey] makes the verifier return
    an error with the zero document. *)
Lemma getKey_material :
  forall (G : Globals) (tok : jwt.Token gcpIdentityDoc),
    (forall k,
       getKey G tok = inl k <->
       exists kid key,
         jwt.Header tok !! "kid" = Some (jwt.JString kid) /\
         jwk.LookupKeyID (jwtSet G) kid = [key] /\
         jwk.Materialize key = inl k)
    /\
    ((forall kid, jwt.Header tok !! "kid" <> Some (jwt.JString kid)) ->
     getKey G tok = inr (errors_New "expecting JWT header to have string kid"))
    /\
    (forall kid,
       jwt.Header tok !! "kid" = Some (jwt.JString kid) ->
       length (jwk.LookupKeyID (jwtSet G) kid) <> 1%nat ->
       getKey G tok = inr (errors_New "unable to find key"))
    /\
    (forall (P : jwt.Parser gcpIdentityDoc) ctx aud raw parts w err,
       jwt.ParseUnverified P raw = inl (tok, parts) ->
       getKey G tok = inr err ->
       exists e,
         verifyGoogleIDToken P G ctx aud raw w =
           (Returned (gcpIdentityDoc_zero, Some e),
            logged w [Log "Error parsing JWT %v" [AError e]])).
Proof.
  intros G tok. repeat split.
  - unfold getKey. intros Hk.
    destruct (jwt.Header tok !! "kid") as [[| | |kid| |]|] eqn:Hh; try discriminate.
    destruct (jwk.LookupKeyID (jwtSet G) kid) as [|key [|key' l]] eqn:Hl;
      try discriminate.
    exists kid, key. split; [reflexivity|]. split; [exact Hl | exact Hk].
  - intros (kid & key & Hh & Hl & Hm). unfold getKey. rewrite Hh, Hl. exact Hm.
  - intros Hno. unfold getKey.
    destruct (jwt.Header tok !! "kid") as [[| | |kid| |]|]; try reflexivity.
    exfalso. exact (Hno kid eq_refl).
  - intros kid Hh Hlen. unfold getKey. rewrite Hh.
    destruct (jwk.LookupKeyID (jwtSet G) kid) as [|key [|key' l]];
      [reflexivity | exfalso; apply Hlen; reflexivity | reflexivity].
  - intros P ctx aud raw parts w err Hp Hk.
    eexists. apply (verify_rejects P G ctx aud raw (Some tok)).
    exact (ParseWithClaims_no_key P (getKey G) raw tok parts err Hp Hk).
Qed.

(** The keys [LookupKeyID] returns are keys of the set. *)
Lemma LookupKeyID_In (s : jwk.KeySet) (kid : string) (key : jwk.Key) :
  In key (jwk.LookupKeyID s kid) -> In key (jwk.Keys s).
Proof.
  unfold jwk.LookupKeyID. intros H. apply List.filter_In in H. exact (proj1 H).
Qed.

(** C5.  With a key set as fetched (every key materialises), [getKey]
    returns key material exactly when the token header carries a string
    [kid] and exactly one key of the set has that id.  When the [kid] is
    missing or not a string, when no key matches and when more than one
    key matches, it returns an error.  So a token whose key is not in the
    set is refused: the verifier returns an error with the zero document,
    and the middleware answers 401 without calling the wrapped handler;
    nothing panics. *)
Theorem C5_getKey_unique_match :
  forall (G : Globals) (tok : jwt.Token gcpIdentityDoc),
    materialisable (jwtSet G) ->
    key_iff_unique_match G tok
    /\
    ((forall kid, jwt.Header tok !! "kid" <> Some (jwt.JString kid)) ->
     getKey G tok = inr (errors_New "expecting JWT header to have string kid"))
    /\
    (forall kid,
       jwt.Header tok !! "kid" = Some (jwt.JString kid) ->
       jwk.LookupKeyID (jwtSet G) kid = [] ->
       getKey G tok = inr (errors_New "unable to find key"))
    /\
    (forall kid,
       jwt.Header tok !! "kid" = Some (jwt.JString kid) ->
       (1 < length (jwk.LookupKeyID (jwtSet G) kid))%nat ->
       getKey G tok = inr (errors_New "unable to find key"))
    /\
    (forall (P : jwt.Parser gcpIdentityDoc) ctx aud raw parts w kid,
       jwt.ParseUnverified P raw = inl (tok, parts) ->
       jwt.Header tok !! "kid" = Some (jwt.JString kid) ->
       jwk.LookupKeyID (jwtSet G) kid = [] ->
       exists e,
         verifyGoogleIDToken P G ctx aud raw w =
           (Returned (gcpIdentityDoc_zero, Some e),
            logged w [Log "Error parsing JWT %v" [AError e]]) /\
         forall (h : Handler) (r : Request) pre t rest,
           strings.Split (Authorization r) "Bearer" = pre :: t :: rest ->
           strings.TrimSpace t = raw ->
           authMiddleware P G h r newWorld =
             (Returned tt,
              responded (errorResponse http_StatusUnauthorized) newWorld
                [calledLine; Log "Error parsing JWT %v" [AError e]])).
Proof.
  intros G tok Hmat.
  destruct (getKey_material G tok) as (Hiff & Hnokid & Hlen & _).
  split; [|split; [exact Hnokid|split; [|split]]].
  - unfold key_iff_unique_match. split.
    + intros (k & Hk). apply Hiff in Hk. destruct Hk as (kid & key & Hh & Hl & _).
      exists kid. split; [exact Hh|]. rewrite Hl. reflexivity.
    + intros (kid & Hh & Hone).
      destruct (jwk.LookupKeyID (jwtSet G) kid) as [|key [|key' l]] eqn:Hl;
        try discriminate Hone.
      destruct (Hmat key) as (k & Hk).
      { apply (LookupKeyID_In _ kid). rewrite Hl. left. reflexivity. }
      exists k. apply Hiff. exists kid, key. auto.
  - intros kid Hh Hl. apply (Hlen kid Hh). rewrite Hl. discriminate.
  - intros kid Hh Hl. apply (Hlen kid Hh). lia.
  - intros P ctx aud raw parts w kid Hp Hh Hl.
    assert (getKey G tok = inr (errors_New "unable to find key")) as Hk.
    { apply (Hlen kid Hh). rewrite Hl. discriminate. }
    pose proof (ParseWithClaims_no_key P (getKey G) raw tok parts _ Hp Hk) as Hparse.
    eexists. split; [exact (verify_rejects P G ctx aud raw _ _ w Hparse)|].
    intros h r pre t rest Hs Ht. subst raw.
    exact (auth_rejects_token P G h r pre t rest _ _ Hs Hparse).
Qed.

Lemma C5_getKey_witness :
  (exists k,
     getKey fixture.globalsFetched
       (fixture.token "hdr1.good.sig-k1" (fixture.kid "K1")
          (fixture.claims fixture.scheduler "https://elsewhere" 2000 0)) = inl k)
  /\
  getKey fixture.globalsFetched
    (fixture.token "hdr9.good.sig-k9" (fixture.kid "K9")
       (fixture.claims fixture.scheduler "https://rsync.run.app" 2000 0))
    = inr (errors_New "unable to find key")
  /\
  getKey fixture.globalsFetched
    (fixture.token "hdr2.good.sig-k2" (fixture.kid "K2")
       (fixture.claims fixture.scheduler "https://rsync.run.app" 2000 0))
    = inr (errors_New "unable to find key")
  /\
  exists e,
    authMiddleware fixture.parser fixture.globalsFetched
      (defaulthandler fixture.engine fixture.globalsFetched ∅)
      (fixture.request "GET" "/" ["Bearer hdr9.good.sig-k9"]) newWorld =
      (Returned tt,
       responded (errorResponse http_StatusUnauthorized) newWorld
         [calledLine; Log "Error parsing JWT %v" [AError e]]).
Proof.
  assert (materialisable (jwtSet fixture.globalsFetched)) as Hmat.
  { intros key Hin. cbn in Hin.
    destruct Hin as [<- | [<- | [<- | []]]]; eexists; reflexivity. }
  split.
  { apply (proj1 (C5_getKey_unique_match fixture.globalsFetched _ Hmat)).
    exists "K1". split; reflexivity. }
  split.
  { apply (proj1 (proj2 (proj2 (C5_getKey_unique_match fixture.globalsFetched _ Hmat))) "K9");
      reflexivity. }
  split.
  { apply (proj1 (proj2 (proj2 (proj2 (C5_getKey_unique_match fixture.globalsFetched _ Hmat))))
             "K2").
    - reflexivity.
    - cbn. lia. }
  destruct (proj2 (proj2 (proj2 (proj2 (C5_getKey_unique_match fixture.globalsFetched
              (fixture.token "hdr9.good.sig-k9" (fixture.kid "K9")
                 (fixture.claims fixture.scheduler "https://rsync.run.app" 2000 0)) Hmat))))
              fixture.parser (requestContext 7) "https://rsync.run.app" "hdr9.good.sig-k9"
              ("hdr9", "good", "sig-k9") newWorld "K9" eq_refl eq_refl eq_refl)
    as (e & _ & Hgate).
  exists e.
  exact (Hgate (defaulthandler fixture.engine fixture.globalsFetched ∅)
           (fixture.request "GET" "/" ["Bearer hdr9.good.sig-k9"])
           "" " hdr9.good.sig-k9" [] eq_refl eq_refl).
Defined.

(* ================================================================== *)
(** ** Start-up                                                        *)
(* ================================================================== *)

Section MainFacts.

Variable Getenv : string -> string.
Variable FetchHTTP : string -> jwk.KeySet + error.
Variable mux_Router : list Route -> Handler.
Variable P : jwt.Parser gcpIdentityDoc.
Variable E : Engine.
Variable config0 : gmap (string * string) string.

(** [main] reaches [ListenAndServe] exactly when the key set was fetched
    and the audience and both bucket names are non-empty. *)
Lemma main_serving_iff :
  isServing (main Getenv FetchHTTP mux_Router P E config0) = true <->
  (exists set, FetchHTTP jwksURL = inl set) /\
  Getenv "AUDIENCE" <> "" /\ Getenv "GS" <> "" /\ Getenv "S3" <> "".
Proof.
  unfold main.
  destruct (FetchHTTP jwksURL) as [set|e].
  - destruct (String.eqb_spec (Getenv "AUDIENCE") "") as [Ha|Ha];
    destruct (String.eqb_spec (Getenv "GS") "") as [Hg|Hg];
    destruct (String.eqb_spec (Getenv "S3") "") as [Hs|Hs];
      cbn [orb isServing]; split;
      try discriminate; try (intros (_ & ? & ? & ?); contradiction);
      try reflexivity.
    intros _. eauto.
  - cbn [isServing]. split; [discriminate|]. intros ((set & Hset) & _). discriminate.
Qed.

(** The state [main] hands to the server. *)
Lemma main_serving_state g c srv :
  main Getenv FetchHTTP mux_Router P E config0 = ListenAndServe g c srv ->
  FetchHTTP jwksURL = inl (jwtSet g) /\
  gs g = Getenv "GS" /\ s3 g = Getenv "S3" /\ myAudience g = Getenv "AUDIENCE" /\
  awsAccessKey g = Getenv "AWS_ACCESS_KEY_ID" /\
  awsSecretAcessKey g = Getenv "AWS_SECRET_ACCESS_ID" /\
  awsRegion g = Getenv "AWS_REGION" /\
  c !! ("s3", "access_key_id") = Some (Getenv "AWS_ACCESS_KEY_ID") /\
  c !! ("s3", "secret_access_key") = Some (Getenv "AWS_SECRET_ACCESS_ID") /\
  c !! ("s3", "region") = Some (Getenv "AWS_REGION") /\
  c !! ("gs", "type") = Some "google cloud storage" /\
  c !! ("s3", "type") = Some "s3" /\
  Addr srv = ":8080" /\
  ServerHandler srv =
    authMiddleware P g
      (mux_Router [ {| routeMethods := [http_MethodGet]; routePath := "/";
                       routeHandler := defaulthandler E g c |} ]).
Proof.
  unfold main.
  destruct (FetchHTTP jwksURL) as [set|e]; [|discriminate].
  destruct (_ || _ || _); [discriminate|].
  intros [= <- <- <-]. cbn [jwtSet gs s3 myAudience awsAccessKey awsSecretAcessKey
                             awsRegion Addr ServerHandler].
  unfold ConfigFileSet.
  repeat split; try reflexivity; simplify_map_eq; reflexivity.
Qed.

End MainFacts.

(** C6.  Start-up ends in a fatal log line, and the server is never
    started, when the JWKS fetch fails or when the audience, the source
    bucket or the destination bucket is empty; the server is started
    exactly when the key set was fetched and all three are non-empty, and
    it then holds the fetched key set. *)
Theorem C6_startup_fails_fast :
  forall (Getenv : string -> string) (FetchHTTP : string -> jwk.KeySet + error)
         (mux_Router : list Route -> Handler) (P : jwt.Parser gcpIdentityDoc)
         (E : Engine) (config0 : gmap (string * string) string),
    ((exists e, FetchHTTP jwksURL = inr e) \/
     Getenv "AUDIENCE" = "" \/ Getenv "GS" = "" \/ Getenv "S3" = "" ->
     exists args, main Getenv FetchHTTP mux_Router P E config0 = log_Fatal args)
    /\
    (forall g c srv,
       main Getenv FetchHTTP mux_Router P E config0 = ListenAndServe g c srv ->
       FetchHTTP jwksURL = inl (jwtSet g) /\
       myAudience g <> "" /\ gs g <> "" /\ s3 g <> "")
    /\
    ((exists set, FetchHTTP jwksURL = inl set) ->
     Getenv "AUDIENCE" <> "" -> Getenv "GS" <> "" -> Getenv "S3" <> "" ->
     exists g c srv,
       main Getenv FetchHTTP mux_Router P E config0 = ListenAndServe g c srv).
Proof.
  intros Getenv FetchHTTP mux_Router P E config0.
  pose proof (main_serving_iff Getenv FetchHTTP mux_Router P E config0) as Hiff.
  split; [|split].
  - intros Hbad.
    destruct (main Getenv FetchHTTP mux_Router P E config0) as [args|g c srv] eqn:Hm;
      [eauto|].
    exfalso. destruct (proj1 Hiff eq_refl) as ((set & Hset) & Ha & Hg & Hs).
    destruct Hbad as [(e & He) | [H | [H | H]]]; congruence.
  - intros g c srv Hm.
    destruct (main_serving_state _ _ _ _ _ _ g c srv Hm)
      as (Hf & Hgs & Hs3 & Haud & _).
    rewrite Hm in Hiff. destruct (proj1 Hiff eq_refl) as (_ & Ha & Hg & Hs).
    rewrite Hgs, Hs3, Haud. auto.
  - intros Hset Ha Hg Hs.
    destruct (main Getenv FetchHTTP mux_Router P E config0) as [args|g c srv] eqn:Hm;
      [|eauto].
    exfalso. assert (false = true) by (apply Hiff; auto). discriminate.
Qed.

Lemma C6_startup_witness :
  (exists args,
     main fixture.envFull fixture.fetchFails fixture.router fixture.parser
          fixture.engine ∅ = log_Fatal args) /\
  (exists args,
     main fixture.envNoSource fixture.fetchOK fixture.router fixture.parser
          fixture.engine ∅ = log_Fatal args) /\
  (exists g c srv,
     main fixture.envFull fixture.fetchOK fixture.router fixture.parser
          fixture.engine ∅ = ListenAndServe g c srv).
Proof.
  split; [|split].
  - apply (proj1 (C6_startup_fails_fast fixture.envFull fixture.fetchFails
                    fixture.router fixture.parser fixture.engine ∅)).
    left. eexists. reflexivity.
  - apply (proj1 (C6_startup_fails_fast fixture.envNoSource fixture.fetchOK
                    fixture.router fixture.parser fixture.engine ∅)).
    right. right. left. reflexivity.
  - apply (proj2 (proj2 (C6_startup_fails_fast fixture.envFull fixture.fetchOK
                    fixture.router fixture.parser fixture.engine ∅))).
    + eexists. reflexivity.
    + discriminate.
    + discriminate.
    + discriminate.
Defined.

(** C7, read literally, fails: with the three identifiers set and every
    destination credential empty, [main] starts the server. *)
Lemma C7_counterexample :
  fixture.envNoCredentials "AWS_ACCESS_KEY_ID" = "" /\
  fixture.envNoCredentials "AWS_SECRET_ACCESS_ID" = "" /\
  fixture.envNoCredentials "AWS_REGION" = "" /\
  isServing (main fixture.envNoCredentials fixture.fetchOK fixture.router
               fixture.parser fixture.engine ∅) = true.
Proof.
  repeat split; reflexivity.
Qed.

(** C7, amended.  When the server is started the source and destination
    identifiers (and the audience) are non-empty, and start-up fails fast
    when one of them is missing.  The destination credentials are copied
    from the environment into the configuration as they are, empty or
    not, and are not checked: whether the server is started does not
    depend on them. *)
Theorem C7_identifiers_checked_credentials_copied :
  forall (Getenv Getenv' : string -> string)
         (FetchHTTP : string -> jwk.KeySet + error)
         (mux_Router : list Route -> Handler) (P : jwt.Parser gcpIdentityDoc)
         (E : Engine) (config0 : gmap (string * string) string),
    Getenv' "AUDIENCE" = Getenv "AUDIENCE" ->
    Getenv' "GS" = Getenv "GS" ->
    Getenv' "S3" = Getenv "S3" ->
    isServing (main Getenv' FetchHTTP mux_Router P E config0) =
    isServing (main Getenv FetchHTTP mux_Router P E config0)
    /\
    (Getenv "AUDIENCE" = "" \/ Getenv "GS" = "" \/ Getenv "S3" = "" ->
     isServing (main Getenv FetchHTTP mux_Router P E config0) = false)
    /\
    (forall g c srv,
       main Getenv FetchHTTP mux_Router P E config0 = ListenAndServe g c srv ->
       gs g <> "" /\ s3 g <> "" /\ myAudience g <> "" /\
       c !! ("s3", "access_key_id") = Some (Getenv "AWS_ACCESS_KEY_ID") /\
       c !! ("s3", "secret_access_key") = Some (Getenv "AWS_SECRET_ACCESS_ID") /\
       c !! ("s3", "region") = Some (Getenv "AWS_REGION")).
Proof.
  intros Getenv Getenv' FetchHTTP mux_Router P E config0 Ha Hg Hs.
  pose proof (main_serving_iff Getenv FetchHTTP mux_Router P E config0) as Hiff.
  pose proof (main_serving_iff Getenv' FetchHTTP mux_Router P E config0) as Hiff'.
  rewrite Ha, Hg, Hs in Hiff'.
  split; [|split].
  - destruct (isServing (main Getenv FetchHTTP mux_Router P E config0)).
    + apply Hiff', Hiff. reflexivity.
    + destruct (isServing (main Getenv' FetchHTTP mux_Router P E config0));
        [|reflexivity].
      symmetry. apply Hiff, Hiff'. reflexivity.
  - intros Hbad.
    destruct (isServing (main Getenv FetchHTTP mux_Router P E config0));
      [|reflexivity].
    exfalso. destruct (proj1 Hiff eq_refl) as (_ & ? & ? & ?).
    destruct Hbad as [H' | [H' | H']]; congruence.
  - intros g c srv Hm.
    destruct (main_serving_state _ _ _ _ _ _ g c srv Hm)
      as (_ & Hgs & Hs3 & Haud & _ & _ & _ & Hk & Hsec & Hreg & _).
    rewrite Hm in Hiff. destruct (proj1 Hiff eq_refl) as (_ & ? & ? & ?).
    rewrite Hgs, Hs3, Haud. auto 10.
Qed.

Lemma C7_credentials_witness :
  isServing (main fixture.envNoCredentials fixture.fetchOK fixture.router
               fixture.parser fixture.engine ∅) =
  isServing (main fixture.envFull fixture.fetchOK fixture.router
               fixture.parser fixture.engine ∅).
Proof.
  apply (C7_identifiers_checked_credentials_copied fixture.envFull
           fixture.envNoCredentials fixture.fetchOK fixture.router
           fixture.parser fixture.engine ∅); reflexivity.
Defined.

(* ================================================================== *)
(** ** The sync trigger handler                                        *)
(* ================================================================== *)

Lemma syncCalls_app (t1 t2 : list Event) :
  syncCalls (t1 ++ t2) = (syncCalls t1 + syncCalls t2)%nat.
Proof.
  unfold syncCalls. rewrite List.filter_app, List.length_app. reflexivity.
Qed.

Section HandlerFacts.

Variable E : Engine.
Variable G : Globals.
Variable config : gmap (string * string) string.

Lemma defaulthandler_trace (r : Request) (w : World) :
  fst (defaulthandler E G config r w) = Returned tt /\
  trace (snd (defaulthandler E G config r w)) = trace w ++ handlerEvents E G config r.
Proof.
  unfold defaulthandler, handlerEvents, fs_NewFs, sync_Sync, bind, emit, ret.
  destruct (NewFs E config ("gs:" +:+ gs G)) as [fsrc|e].
  - destruct (NewFs E config ("s3:" +:+ s3 G)) as [fdest|e].
    + cbn [trace response].
      destruct (Sync E (Ctx r) fdest fsrc false);
        cbn; rewrite <- !app_assoc; split; reflexivity.
    + cbn. rewrite <- !app_assoc. split; reflexivity.
  - cbn. split; reflexivity.
Qed.

Lemma defaulthandler_no_source (r : Request) (w : World) e :
  response w = response newWorld ->
  NewFs E config ("gs:" +:+ gs G) = inr e ->
  defaulthandler E G config r w =
    (Returned tt,
     responded (errorResponse http_StatusInternalServerError) w
       [NewFsCall ("gs:" +:+ gs G)]).
Proof.
  intros Hw Hs. destruct w as [rw tr]. cbn in Hw. subst rw.
  unfold defaulthandler, fs_NewFs, bind, emit, ret. rewrite Hs. reflexivity.
Qed.

Lemma defaulthandler_no_dest (r : Request) (w : World) fsrc e :
  response w = response newWorld ->
  NewFs E config ("gs:" +:+ gs G) = inl fsrc ->
  NewFs E config ("s3:" +:+ s3 G) = inr e ->
  defaulthandler E G config r w =
    (Returned tt,
     responded (errorResponse http_StatusInternalServerError) w
       [NewFsCall ("gs:" +:+ gs G); NewFsCall ("s3:" +:+ s3 G)]).
Proof.
  intros Hw Hs Hd. destruct w as [rw tr]. cbn in Hw. subst rw.
  unfold defaulthandler, fs_NewFs, bind, emit, ret. rewrite Hs. cbn [trace response].
  rewrite Hd. unfold responded. cbn. rewrite <- app_assoc. reflexivity.
Qed.

Lemma defaulthandler_sync (r : Request) (w : World) fsrc fdest :
  response w = response newWorld ->
  NewFs E config ("gs:" +:+ gs G) = inl fsrc ->
  NewFs E config ("s3:" +:+ s3 G) = inl fdest ->
  defaulthandler E G config r w =
    (Returned tt,
     responded
       (match Sync E (Ctx r) fdest fsrc false with
        | Some _ => errorResponse http_StatusInternalServerError
        | None => okResponse
        end) w
       [NewFsCall ("gs:" +:+ gs G); NewFsCall ("s3:" +:+ s3 G);
        SyncCall (Ctx r) fdest fsrc false]).
Proof.
  intros Hw Hs Hd. destruct w as [rw tr]. cbn in Hw. subst rw.
  unfold defaulthandler, fs_NewFs, sync_Sync, bind, emit, ret.
  rewrite Hs. cbn [trace response]. rewrite Hd. cbn [trace response].
  unfold responded.
  destruct (Sync E (Ctx r) fdest fsrc false); cbn; rewrite <- !app_assoc; reflexivity.
Qed.

End HandlerFacts.

(** C8.  On a fresh response the handler answers as follows.  If the
    source remote or the destination remote cannot be built: 500, and no
    sync is requested.  If the sync fails: 500.  Otherwise: 200 with the
    body ["ok"].  In every case the sync is requested at most once: there
    is no retry. *)
Theorem C8_handler_responses :
  forall (E : Engine) (G : Globals) (config : gmap (string * string) string)
         (r : Request) (w : World),
    response w = response newWorld ->
    let gsPath := "gs:" +:+ gs G in
    let s3Path := "s3:" +:+ s3 G in
    let run := defaulthandler E G config r w in
    (forall e, NewFs E config gsPath = inr e ->
       run = (Returned tt,
              responded (errorResponse http_StatusInternalServerError) w
                [NewFsCall gsPath]) /\
       statusCode (response (snd run)) = 500 /\
       syncCalls (trace (snd run)) = syncCalls (trace w))
    /\
    (forall fsrc e, NewFs E config gsPath = inl fsrc -> NewFs E config s3Path = inr e ->
       run = (Returned tt,
              responded (errorResponse http_StatusInternalServerError) w
                [NewFsCall gsPath; NewFsCall s3Path]) /\
       statusCode (response (snd run)) = 500 /\
       syncCalls (trace (snd run)) = syncCalls (trace w))
    /\
    (forall fsrc fdest e,
       NewFs E config gsPath = inl fsrc -> NewFs E config s3Path = inl fdest ->
       Sync E (Ctx r) fdest fsrc false = Some e ->
       run = (Returned tt,
              responded (errorResponse http_StatusInternalServerError) w
                [NewFsCall gsPath; NewFsCall s3Path; SyncCall (Ctx r) fdest fsrc false]) /\
       statusCode (response (snd run)) = 500 /\
       body (response (snd run)) = "Internal Server Error" +:+ LF)
    /\
    (forall fsrc fdest,
       NewFs E config gsPath = inl fsrc -> NewFs E config s3Path = inl fdest ->
       Sync E (Ctx r) fdest fsrc false = None ->
       run = (Returned tt,
              responded okResponse w
                [NewFsCall gsPath; NewFsCall s3Path; SyncCall (Ctx r) fdest fsrc false]) /\
       statusCode (response (snd run)) = 200 /\
       body (response (snd run)) = "ok")
    /\
    (syncCalls (trace (snd run)) <= syncCalls (trace w) + 1)%nat.
Proof.
  intros E G config r w Hw gsPath s3Path run. subst gsPath s3Path run.
  split; [|split; [|split; [|split]]].
  - intros e Hs. rewrite (defaulthandler_no_source E G config r w e Hw Hs).
    cbn [snd responded trace response]. rewrite syncCalls_app.
    split; [reflexivity|]. split; [reflexivity|]. cbn. lia.
  - intros fsrc e Hs Hd. rewrite (defaulthandler_no_dest E G config r w fsrc e Hw Hs Hd).
    cbn [snd responded trace response]. rewrite syncCalls_app.
    split; [reflexivity|]. split; [reflexivity|]. cbn. lia.
  - intros fsrc fdest e Hs Hd Hy.
    rewrite (defaulthandler_sync E G config r w fsrc fdest Hw Hs Hd), Hy.
    split; [reflexivity|]. split; reflexivity.
  - intros fsrc fdest Hs Hd Hy.
    rewrite (defaulthandler_sync E G config r w fsrc fdest Hw Hs Hd), Hy.
    split; [reflexivity|]. split; reflexivity.
  - destruct (defaulthandler_trace E G config r w) as [_ ->].
    rewrite syncCalls_app. unfold handlerEvents.
    destruct (NewFs E config ("gs:" +:+ gs G)); [|cbn; lia].
    destruct (NewFs E config ("s3:" +:+ s3 G)); cbn; lia.
Qed.

Lemma C8_handler_witness :
  let r := forwarded (fixture.request "GET" "/" ["Bearer hdr1.good.sig-k1"])
             (fixture.claims fixture.scheduler "https://elsewhere" 2000 0) in
  (statusCode (response (snd (defaulthandler fixture.engineNoSource fixture.globals ∅ r newWorld))) = 500 /\
   syncCalls (trace (snd (defaulthandler fixture.engineNoSource fixture.globals ∅ r newWorld))) = 0%nat) /\
  (statusCode (response (snd (defaulthandler fixture.engineNoDest fixture.globals ∅ r newWorld))) = 500 /\
   syncCalls (trace (snd (defaulthandler fixture.engineNoDest fixture.globals ∅ r newWorld))) = 0%nat) /\
  statusCode (response (snd (defaulthandler fixture.engineSyncFails fixture.globals ∅ r newWorld))) = 500 /\
  (statusCode (response (snd (defaulthandler fixture.engine fixture.globals ∅ r newWorld))) = 200 /\
   body (response (snd (defaulthandler fixture.engine fixture.globals ∅ r newWorld))) = "ok").
Proof.
  intros r.
  split; [|split; [|split]].
  - destruct (C8_handler_responses fixture.engineNoSource fixture.globals ∅ r newWorld eq_refl)
      as (H & _).
    destruct (H (errors_New "didn't find section in config file") eq_refl) as (_ & Hst & Hn).
    split; [exact Hst | exact Hn].
  - destruct (C8_handler_responses fixture.engineNoDest fixture.globals ∅ r newWorld eq_refl)
      as (_ & H & _).
    destruct (H fixture.gsFs (errors_New "EmptyStaticCreds: static credentials are empty")
                eq_refl eq_refl) as (_ & Hst & Hn).
    split; [exact Hst | exact Hn].
  - destruct (C8_handler_responses fixture.engineSyncFails fixture.globals ∅ r newWorld eq_refl)
      as (_ & _ & H & _).
    destruct (H fixture.gsFs fixture.s3Fs (errors_New "failed to copy")
                eq_refl eq_refl eq_refl) as (_ & Hst & _).
    exact Hst.
  - destruct (C8_handler_responses fixture.engine fixture.globals ∅ r newWorld eq_refl)
      as (_ & _ & _ & H & _).
    destruct (H fixture.gsFs fixture.s3Fs eq_refl eq_refl eq_refl) as (_ & Hst & Hb).
    split; [exact Hst | exact Hb].
Defined.

(** The remotes after the handler's calls, both remotes built and the sync
    successful: the one sync, applied. *)
Lemma storeAfter_handler (E : Engine) (G : Globals)
    (config : gmap (string * string) string) (r : Request) (fsrc fdest : Fs)
    (st : gmap (string * string) (gmap string string)) :
  NewFs E config ("gs:" +:+ gs G) = inl fsrc ->
  NewFs E config ("s3:" +:+ s3 G) = inl fdest ->
  storeAfter (handlerEvents E G config r) st = rclone.Sync_effect fdest fsrc false st.
Proof.
  intros Hs Hd. unfold handlerEvents. rewrite Hs, Hd. reflexivity.
Qed.

(** C9, read literally, fails twice.  When the destination remote cannot
    be built the handler requests no sync at all.  And the sync it does
    request, with the boolean at [false], is not a sync without deletion:
    the object [old.sql], which the destination has and the source has
    not, is gone from the destination after it. *)
Lemma C9_counterexample :
  syncCalls
    (trace (snd (defaulthandler fixture.engineNoDest fixture.globals ∅
                   (fixture.request "GET" "/" ["Bearer hdr1.good.sig-k1"]) newWorld)))
  <> 1%nat
  /\
  let t := trace (snd (defaulthandler fixture.engine fixture.globals ∅
                         (fixture.request "GET" "/" ["Bearer hdr1.good.sig-k1"]) newWorld)) in
  List.filter isSyncCall t =
    [SyncCall (requestContext 7) fixture.s3Fs fixture.gsFs false] /\
  rclone.contents fixture.store fixture.gsFs !! "old.sql" = None /\
  rclone.contents fixture.store fixture.s3Fs !! "old.sql" = Some "x" /\
  rclone.contents (storeAfter t fixture.store) fixture.s3Fs !! "old.sql" = None.
Proof.
  split.
  - vm_compute. discriminate.
  - cbv zeta. repeat split; reflexivity.
Qed.

(** C9, amended.  On every invocation in which both remotes are built, the
    handler requests exactly one sync: with the context of the request it
    was given, the remote of ["s3:" + S3] as destination, the remote of
    ["gs:" + GS] as source, and [false] as the boolean argument.  When a
    remote cannot be built it requests none.  The sync is one-directional
    and mirroring: when it succeeds the destination holds exactly the
    objects of the source, so objects the source does not have are deleted
    from the destination, and the source is left as it was; the boolean
    has no part in that. *)
Theorem C9_one_sync_when_remotes_built :
  forall (E : Engine) (G : Globals) (config : gmap (string * string) string)
         (r : Request) (w : World),
    let run := defaulthandler E G config r w in
    (forall fsrc fdest,
       NewFs E config ("gs:" +:+ gs G) = inl fsrc ->
       NewFs E config ("s3:" +:+ s3 G) = inl fdest ->
       trace (snd run) =
         trace w ++ [NewFsCall ("gs:" +:+ gs G); NewFsCall ("s3:" +:+ s3 G);
                     SyncCall (Ctx r) fdest fsrc false] /\
       List.filter isSyncCall (handlerEvents E G config r) =
         [SyncCall (Ctx r) fdest fsrc false] /\
       syncCalls (trace (snd run)) = (syncCalls (trace w) + 1)%nat /\
       forall st : gmap (string * string) (gmap string string),
         Sync E (Ctx r) fdest fsrc false = None ->
         let st' := storeAfter (handlerEvents E G config r) st in
         rclone.contents st' fdest = rclone.contents st fsrc /\
         (forall name,
            rclone.contents st fsrc !! name = None ->
            rclone.contents st' fdest !! name = None) /\
         ((fsName fdest, fsRoot fdest) <> (fsName fsrc, fsRoot fsrc) ->
          rclone.contents st' fsrc = rclone.contents st fsrc) /\
         st' = rclone.Sync_effect fdest fsrc true st)
    /\
    ((exists e, NewFs E config ("gs:" +:+ gs G) = inr e) \/
     (exists e, NewFs E config ("s3:" +:+ s3 G) = inr e) ->
     syncCalls (trace (snd run)) = syncCalls (trace w) /\
     forall st, storeAfter (handlerEvents E G config r) st = st).
Proof.
  intros E G config r w run. subst run.
  destruct (defaulthandler_trace E G config r w) as [_ ->].
  rewrite syncCalls_app. split.
  - intros fsrc fdest Hs Hd.
    assert (handlerEvents E G config r =
              [NewFsCall ("gs:" +:+ gs G); NewFsCall ("s3:" +:+ s3 G);
               SyncCall (Ctx r) fdest fsrc false]) as Hev
      by (unfold handlerEvents; rewrite Hs, Hd; reflexivity).
    rewrite Hev. split; [reflexivity|]. split; [reflexivity|]. split; [reflexivity|].
    intros st _ st'. subst st'. rewrite <- Hev.
    rewrite (storeAfter_handler E G config r fsrc fdest st Hs Hd).
    assert (rclone.contents (rclone.Sync_effect fdest fsrc false st) fdest =
            rclone.contents st fsrc) as Hmirror.
    { unfold rclone.Sync_effect, rclone.contents at 1.
      rewrite lookup_insert_eq. reflexivity. }
    split; [exact Hmirror|]. split; [|split].
    + intros name Hnone. rewrite Hmirror. exact Hnone.
    + intros Hne. unfold rclone.Sync_effect, rclone.contents at 1.
      rewrite lookup_insert_ne by exact Hne. reflexivity.
    + reflexivity.
  - intros Hfail. unfold handlerEvents.
    destruct Hfail as [(e & ->) | (e & ->)].
    + split; [cbn; lia | reflexivity].
    + destruct (NewFs E config ("gs:" +:+ gs G)); split; cbn; try lia; reflexivity.
Qed.

Lemma C9_one_sync_witness :
  let r := fixture.request "GET" "/" ["Bearer hdr1.good.sig-k1"] in
  trace (snd (defaulthandler fixture.engine fixture.globals ∅ r newWorld)) =
    [NewFsCall "gs:backups"; NewFsCall "s3:mirror";
     SyncCall (requestContext 7) fixture.s3Fs fixture.gsFs false] /\
  rclone.contents
    (storeAfter (handlerEvents fixture.engine fixture.globals ∅ r) fixture.store)
    fixture.s3Fs = rclone.contents fixture.store fixture.gsFs /\
  syncCalls (trace (snd (defaulthandler fixture.engineNoDest fixture.globals ∅ r newWorld)))
    = 0%nat.
Proof.
  intros r. split; [|split].
  - destruct (C9_one_sync_when_remotes_built fixture.engine fixture.globals ∅ r newWorld)
      as [H _].
    destruct (H fixture.gsFs fixture.s3Fs eq_refl eq_refl) as (Ht & _).
    exact Ht.
  - destruct (C9_one_sync_when_remotes_built fixture.engine fixture.globals ∅ r newWorld)
      as [H _].
    destruct (H fixture.gsFs fixture.s3Fs eq_refl eq_refl) as (_ & _ & _ & Hst).
    exact (proj1 (Hst fixture.store eq_refl)).
  - destruct (C9_one_sync_when_remotes_built fixture.engineNoDest fixture.globals ∅ r newWorld)
      as [_ H].
    apply H. right. eexists. reflexivity.
Defined.

(* ================================================================== *)
(** ** The gate in front of the router                                 *)
(* ================================================================== *)

(** Either the header carries, after the marker, a token that passes every
    check, or the run does not depend on the wrapped handler: control is
    never handed to it, and the status is 401 or, after the panic of C1,
    none. *)
Lemma gate_before_routing (P : jwt.Parser gcpIdentityDoc) (G : Globals) (r : Request) :
  (exists pre t rest tok,
     strings.Split (Authorization r) "Bearer" = pre :: t :: rest /\
     passes_all_checks P G (strings.TrimSpace t) tok)
  \/
  (exists out,
     (forall h, authMiddleware P G h r newWorld = out) /\
     downstreamCalls (trace (snd out)) = 0%nat /\
     (statusCode (response (snd out)) = 401 \/
      statusCode (response (snd out)) = 0 /\ exists msg, fst out = Panicked msg)).
Proof.
  destruct (String.eqb_spec (Authorization r) "") as [He|Hne].
  - right. eexists. split; [intros h; apply auth_without_header; exact He|].
    split; [reflexivity | left; reflexivity].
  - destruct (strings.Index (Authorization r) "Bearer") as [m|] eqn:Hi.
    + destruct (Split_with_sep (Authorization r) "Bearer" m) as (t & rest & Hs);
        [discriminate | exact Hi |].
      destruct (jwt.ParseWithClaims P (strings.TrimSpace t) (getKey G)) as [tk [e|]] eqn:Hp.
      * right. eexists.
        split; [intros h; exact (auth_rejects_token P G h r _ t rest tk e Hs Hp)|].
        split; [reflexivity | left; reflexivity].
      * left. destruct (parse_ok_passes P G _ tk Hp) as (tok & _ & Hok & _).
        exists (strings.sliceTo m (Authorization r)), t, rest, tok. auto.
    + right. eexists.
      split; [intros h; apply auth_without_marker_panics;
              [exact Hne | apply Contains_false_Index; exact Hi]|].
      split; [reflexivity|]. right. split; [reflexivity | eauto].
Qed.

(** A verified request reaches the wrapped handler with the identity
    document stored in a child of the request's own context. *)
Lemma gate_forwards_verified (P : jwt.Parser gcpIdentityDoc) (G : Globals)
    (h : Handler) (r : Request) pre t rest tok :
  strings.Split (Authorization r) "Bearer" = pre :: t :: rest ->
  passes_all_checks P G (strings.TrimSpace t) tok ->
  exists w,
    authMiddleware P G h r newWorld = h (forwarded r (jwt.Claims tok)) w /\
    response w = response newWorld /\
    List.filter isServeHTTP (trace w) = [ServeHTTP (forwarded r (jwt.Claims tok))] /\
    Ctx (forwarded r (jwt.Claims tok)) =
      context_WithValue (Ctx r) contextEventKey (jwt.Claims tok).
Proof.
  intros Hs Hok. destruct (accepted_parse P G _ tok Hok) as (tok' & Hp & Hv & Hc).
  eexists. split.
  - rewrite (auth_accepts_token P G h r pre t rest tok' Hs Hp Hv), Hc. reflexivity.
  - split; [reflexivity|]. split; reflexivity.
Qed.

(** The scenario of the specification: key [K1] in the set, signature
    good, expiry in the future, sync succeeding: 200 and ["ok"]. *)
Example scenario_valid_token_ok :
  let run := authMiddleware fixture.parser fixture.globals
               (fixture.router
                  [ {| routeMethods := [http_MethodGet]; routePath := "/";
                       routeHandler := defaulthandler fixture.engine fixture.globals ∅ |} ])
               (fixture.request "GET" "/" ["Bearer hdr1.good.sig-k1"]) newWorld in
  fst run = Returned tt /\
  response (snd run) = okResponse /\
  downstreamCalls (trace (snd run)) = 1%nat /\
  syncCalls (trace (snd run)) = 1%nat.
Proof.
  repeat split; reflexivity.
Qed.

(** C10.  The middleware does wrap the whole router, and the claim asks
    that every request without a valid token get 401 before any routing.
    On a [POST /admin] whose header is ["Basic xyz"], served by the handler
    [main] installs, the program does otherwise: the run panics in the
    middleware (the defect of C1), no status is written, and the router is
    not reached. *)
Theorem C10_unrouted_request_panics :
  forall (Getenv : string -> string) (FetchHTTP : string -> jwk.KeySet + error)
         (mux_Router : list Route -> Handler) (P : jwt.Parser gcpIdentityDoc)
         (E : Engine) (config0 : gmap (string * string) string)
         (g : Globals) (c : gmap (string * string) string) (srv : Server) (ctx : Context),
    main Getenv FetchHTTP mux_Router P E config0 = ListenAndServe g c srv ->
    let r := {| Method := "POST"; Path := "/admin";
                Header := <[ "Authorization" := ["Basic xyz"] ]> ∅; Ctx := ctx |} in
    ServerHandler srv r newWorld =
      (Panicked "runtime error: index out of range [1] with length 1",
       logged newWorld [calledLine]) /\
    statusCode (response (snd (ServerHandler srv r newWorld))) <> 401 /\
    downstreamCalls (trace (snd (ServerHandler srv r newWorld))) = 0%nat.
Proof.
  intros Getenv FetchHTTP mux_Router P E config0 g c srv ctx Hm r.
  destruct (main_serving_state _ _ _ _ _ _ g c srv Hm) as (_ & _ & _ & _ & _ & _ & _ & _ & _ & _ & _ & _ & _ & ->).
  assert (forall h, authMiddleware P g h r newWorld =
            (Panicked "runtime error: index out of range [1] with length 1",
             logged newWorld [calledLine])) as Hrun.
  { intros h. apply auth_without_marker_panics; [discriminate | reflexivity]. }
  rewrite Hrun. split; [reflexivity|]. split; [discriminate | reflexivity].
Qed.

Lemma C10_unrouted_request_witness :
  exists g c srv,
    main fixture.envFull fixture.fetchOK fixture.router fixture.parser
         fixture.engine ∅ = ListenAndServe g c srv /\
    ServerHandler srv
      {| Method := "POST"; Path := "/admin";
         Header := <[ "Authorization" := ["Basic xyz"] ]> ∅;
         Ctx := requestContext 7 |} newWorld =
      (Panicked "runtime error: index out of range [1] with length 1",
       logged newWorld [calledLine]).
Proof.
  eexists _, _, _. split; [reflexivity|].
  apply (C10_unrouted_request_panics fixture.envFull fixture.fetchOK fixture.router
           fixture.parser fixture.engine ∅ _ _ _ (requestContext 7) eq_refl).
Defined.

(* ================================================================== *)
(** ** Further properties of the middleware                            *)
(* ================================================================== *)

(** A header that starts with the marker and has no second marker splits
    into the empty piece and the rest. *)
Lemma Split_Bearer_prefix (s : string) :
  strings.Index s "Bearer" = None ->
  strings.Split ("Bearer" +:+ s) "Bearer" = [""; s].
Proof.
  intros Hi.
  assert (strings.Index ("Bearer" +:+ s) "Bearer" = Some 0%nat) as H0
    by (destruct s; reflexivity).
  unfold strings.Split.
  change (String.length ("Bearer" +:+ s)) with (S (5 + String.length s)%nat).
  cbn [strings.genSplit]. rewrite H0.
  change (strings.sliceFrom (0 + String.length "Bearer")%nat ("Bearer" +:+ s)) with s.
  change (strings.sliceTo 0 ("Bearer" +:+ s)) with "".
  f_equal. destruct (5 + String.length s)%nat; cbn [strings.genSplit];
    [reflexivity | rewrite Hi; reflexivity].
Qed.

Lemma fixture_router_serves_root : serves_root fixture.router.
Proof.
  intros h r w Hm Hp. exists r. repeat split.
  cbn [fixture.router routePath routeMethods routeHandler existsb].
  rewrite Hp, Hm. reflexivity.
Qed.

(** X1.  Every request whose [Authorization] value is non-empty and does
    not contain ["Bearer"] makes the middleware panic at [splitToken[1]]:
    nothing is written to the response, only the entry line is logged, and
    the wrapped handler, whichever it is, is not entered. *)
Theorem X1_header_without_marker_panics :
  forall (P : jwt.Parser gcpIdentityDoc) (G : Globals) (h : Handler) (r : Request),
    Authorization r <> "" ->
    strings.Contains (Authorization r) "Bearer" = false ->
    strings.Split (Authorization r) "Bearer" = [Authorization r] /\
    authMiddleware P G h r newWorld =
      (Panicked "runtime error: index out of range [1] with length 1",
       {| response := response newWorld; trace := [calledLine] |}) /\
    downstreamCalls (trace (snd (authMiddleware P G h r newWorld))) = 0%nat.
Proof.
  intros P G h r Hne Hc.
  pose proof (auth_without_marker_panics P G h r Hne Hc) as Hrun.
  split.
  - apply Split_without_sep; [discriminate | apply Contains_false_Index; exact Hc].
  - rewrite Hrun. split; reflexivity.
Qed.

Lemma X1_header_without_marker_witness :
  authMiddleware fixture.parser fixture.globals
    (defaulthandler fixture.engine fixture.globals ∅)
    (fixture.request "GET" "/" ["bearer hdr1.good.sig-k1"]) newWorld =
    (Panicked "runtime error: index out of range [1] with length 1",
     {| response := response newWorld; trace := [calledLine] |}).
Proof.
  apply (X1_header_without_marker_panics fixture.parser fixture.globals
           (defaulthandler fixture.engine fixture.globals ∅)
           (fixture.request "GET" "/" ["bearer hdr1.good.sig-k1"])).
  - discriminate.
  - reflexivity.
Defined.

(** X2.  For every request the middleware does one of three things.  It
    hands a request to the wrapped handler, and then the header carried,
    after the marker, a token that passed every check.  Or it returns
    with exactly the 401 response of [http.Error], the same whatever made
    it refuse.  Or it panics with the response untouched.  In the last
    two cases the run is the same for every wrapped handler. *)
Theorem X2_middleware_outcomes :
  forall (P : jwt.Parser gcpIdentityDoc) (G : Globals) (r : Request),
    (exists pre t rest tok,
       strings.Split (Authorization r) "Bearer" = pre :: t :: rest /\
       passes_all_checks P G (strings.TrimSpace t) tok /\
       forall h, authMiddleware P G h r newWorld =
                 h (forwarded r (jwt.Claims tok))
                   (logged newWorld (acceptedEvents r (jwt.Claims tok))))
    \/
    (exists events,
       (forall h, authMiddleware P G h r newWorld =
                  (Returned tt,
                   {| response := errorResponse http_StatusUnauthorized;
                      trace := events |})) /\
       downstreamCalls events = 0%nat)
    \/
    (exists msg,
       forall h, authMiddleware P G h r newWorld =
                 (Panicked msg,
                  {| response := response newWorld; trace := [calledLine] |})).
Proof.
  intros P G r.
  destruct (String.eqb_spec (Authorization r) "") as [He|Hne].
  - right. left. eexists. split; [intros h; apply auth_without_header; exact He|].
    reflexivity.
  - destruct (strings.Index (Authorization r) "Bearer") as [m|] eqn:Hi.
    + destruct (Split_with_sep (Authorization r) "Bearer" m) as (t & rest & Hs);
        [discriminate | exact Hi |].
      destruct (jwt.ParseWithClaims P (strings.TrimSpace t) (getKey G)) as [tk [e|]] eqn:Hp.
      * right. left. eexists.
        split; [intros h; exact (auth_rejects_token P G h r _ t rest tk e Hs Hp)|].
        reflexivity.
      * left. destruct (parse_ok_passes P G _ tk Hp) as (tok & tok' & Hok & -> & Hv & Hc).
        exists (strings.sliceTo m (Authorization r)), t, rest, tok.
        split; [exact Hs|]. split; [exact Hok|]. intros h.
        rewrite (auth_accepts_token P G h r _ t rest tok' Hs Hp Hv), Hc. reflexivity.
    + right. right. eexists. intros h.
      apply auth_without_marker_panics; [exact Hne | apply Contains_false_Index; exact Hi].
Qed.

(** X3.  A request whose token passes every check is handed to the
    wrapped handler exactly once and unchanged but for its context, which
    is a child of the request's own context holding the verified document
    under the key ["event"]; the response is still unwritten at that point
    and the document's email has been logged. *)
Theorem X3_verified_request_forwarded :
  forall (P : jwt.Parser gcpIdentityDoc) (G : Globals) (h : Handler) (r : Request)
         pre t rest tok,
    strings.Split (Authorization r) "Bearer" = pre :: t :: rest ->
    passes_all_checks P G (strings.TrimSpace t) tok ->
    exists r' w,
      authMiddleware P G h r newWorld = h r' w /\
      Method r' = Method r /\ Path r' = Path r /\ Header r' = Header r /\
      Ctx r' = context_WithValue (Ctx r) "event" (jwt.Claims tok) /\
      response w = response newWorld /\
      List.filter isServeHTTP (trace w) = [ServeHTTP r'] /\
      In (Log "Authenticated email: %v" [AString (Email (jwt.Claims tok))]) (trace w).
Proof.
  intros P G h r pre t rest tok Hs Hok.
  destruct (accepted_parse P G _ tok Hok) as (tok' & Hp & Hv & Hc).
  exists (forwarded r (jwt.Claims tok)). eexists. split.
  - rewrite (auth_accepts_token P G h r pre t rest tok' Hs Hp Hv), Hc. reflexivity.
  - repeat split; try reflexivity. cbn. auto.
Qed.

Lemma X3_verified_request_witness :
  exists r' w,
    authMiddleware fixture.parser fixture.globals
      (defaulthandler fixture.engine fixture.globals ∅)
      (fixture.request "GET" "/" ["Bearer hdr1.good.sig-k1"]) newWorld =
      defaulthandler fixture.engine fixture.globals ∅ r' w /\
    Ctx r' = context_WithValue (requestContext 7) "event"
               (fixture.claims fixture.scheduler "https://elsewhere" 2000 0) /\
    response w = response newWorld.
Proof.
  destruct (X3_verified_request_forwarded fixture.parser fixture.globals
              (defaulthandler fixture.engine fixture.globals ∅)
              (fixture.request "GET" "/" ["Bearer hdr1.good.sig-k1"])
              "" " hdr1.good.sig-k1" []
              (fixture.token "hdr1.good.sig-k1" (fixture.kid "K1")
                 (fixture.claims fixture.scheduler "https://elsewhere" 2000 0))
              eq_refl)
    as (r' & w & Hrun & _ & _ & _ & Hctx & Hresp & _).
  { exists ("hdr1", "good", "sig-k1"), (jwt.Octets "k1").
    split; [reflexivity|]. split; [reflexivity|].
    split; [|reflexivity].
    split; [right; discriminate|]. split; left; reflexivity. }
  exists r', w. split; [exact Hrun|]. split; [exact Hctx | exact Hresp].
Defined.

(** X4.  The verifier has exactly two outcomes, and it never panics: the
    zero document with an error and one ["Error parsing JWT"] log line,
    when the token does not pass every check; or the decoded claims with a
    nil error, when it does.  So a nil error means the token decoded, its
    key was found, its time claims hold and its signature verified; the
    nil dereference and the final ["Error parsing JWT Claims"] return are
    never reached.  The response is not touched. *)
Theorem X4_verifier_outcomes :
  forall (P : jwt.Parser gcpIdentityDoc) (G : Globals) (ctx : Context)
         (aud rawToken : string) (w : World),
    (exists e,
       verifyGoogleIDToken P G ctx aud rawToken w =
         (Returned (gcpIdentityDoc_zero, Some e),
          {| response := response w;
             trace := trace w ++ [Log "Error parsing JWT %v" [AError e]] |}) /\
       forall tok, ~ passes_all_checks P G rawToken tok)
    \/
    (exists tok,
       passes_all_checks P G rawToken tok /\
       verifyGoogleIDToken P G ctx aud rawToken w =
         (Returned (jwt.Claims tok, None),
          {| response := response w;
             trace := trace w ++
               [Log "OIDC doc has Audience [%s]   Issuer [%v]"
                  [AString (jwt.Audience (StandardClaims (jwt.Claims tok)));
                   AString (jwt.Issuer (StandardClaims (jwt.Claims tok)))]] |})).
Proof.
  intros P G ctx aud rawToken w.
  destruct (jwt.ParseWithClaims P rawToken (getKey G)) as [tk [e|]] eqn:Hp.
  - left. exists e. split; [exact (verify_rejects P G ctx aud rawToken tk e w Hp)|].
    intros tok Hok. destruct (accepted_parse P G _ tok Hok) as (tok' & Hp' & _).
    congruence.
  - right. destruct (parse_ok_passes P G _ tk Hp) as (tok & tok' & Hok & -> & Hv & Hc).
    exists tok. split; [exact Hok|].
    rewrite (verify_accepts P G ctx aud rawToken tok' w Hp Hv), Hc. reflexivity.
Qed.

(** X5.  For a header of the form ["Bearer" + s], with no further marker
    in [s], the token that is verified is [s] with the surrounding white
    space removed: the request is forwarded when that token passes every
    check, and answered with 401 when it does not. *)
Theorem X5_bearer_header_token :
  forall (P : jwt.Parser gcpIdentityDoc) (G : Globals) (r : Request) (s : string),
    Authorization r = "Bearer" +:+ s ->
    strings.Contains s "Bearer" = false ->
    (exists tok,
       passes_all_checks P G (strings.TrimSpace s) tok /\
       forall h, authMiddleware P G h r newWorld =
                 h (forwarded r (jwt.Claims tok))
                   (logged newWorld (acceptedEvents r (jwt.Claims tok))))
    \/
    ((forall tok, ~ passes_all_checks P G (strings.TrimSpace s) tok) /\
     exists e,
       forall h, authMiddleware P G h r newWorld =
                 (Returned tt,
                  {| response := errorResponse http_StatusUnauthorized;
                     trace := [calledLine; Log "Error parsing JWT %v" [AError e]] |})).
Proof.
  intros P G r s Hh Hc. apply Contains_false_Index in Hc.
  pose proof (Split_Bearer_prefix s Hc) as Hs. rewrite <- Hh in Hs.
  destruct (jwt.ParseWithClaims P (strings.TrimSpace s) (getKey G)) as [tk [e|]] eqn:Hp.
  - right. split.
    + intros tok Hok. destruct (accepted_parse P G _ tok Hok) as (tok' & Hp' & _).
      congruence.
    + exists e. intros h. exact (auth_rejects_token P G h r _ s [] tk e Hs Hp).
  - left. destruct (parse_ok_passes P G _ tk Hp) as (tok & tok' & Hok & -> & Hv & Hcl).
    exists tok. split; [exact Hok|]. intros h.
    rewrite (auth_accepts_token P G h r _ s [] tok' Hs Hp Hv), Hcl. reflexivity.
Qed.

Lemma X5_bearer_header_witness :
  exists e,
    authMiddleware fixture.parser fixture.globals
      (defaulthandler fixture.engine fixture.globals ∅)
      (fixture.request "GET" "/" ["Bearer   hdr1.good.forged "]) newWorld =
      (Returned tt,
       {| response := errorResponse http_StatusUnauthorized;
          trace := [calledLine; Log "Error parsing JWT %v" [AError e]] |}).
Proof.
  destruct (X5_bearer_header_token fixture.parser fixture.globals
              (fixture.request "GET" "/" ["Bearer   hdr1.good.forged "])
              "   hdr1.good.forged " eq_refl eq_refl)
    as [(tok & (parts & key & Hpu & Hk & _ & Hv) & _) | (_ & e & Hrun)].
  - exfalso. vm_compute in Hpu. injection Hpu as <- <-.
    vm_compute in Hk. injection Hk as <-. vm_compute in Hv. discriminate Hv.
  - exists e. apply Hrun.
Defined.

(* ================================================================== *)
(** ** Further properties of the handler and of start-up               *)
(* ================================================================== *)

(** One run of the handler on a fresh response. *)
Lemma defaulthandler_fresh (E : Engine) (G : Globals)
    (config : gmap (string * string) string) (r : Request) (w : World) :
  response w = response newWorld ->
  defaulthandler E G config r w =
    (Returned tt,
     responded (handlerResponse E G config r) w (handlerEvents E G config r)).
Proof.
  intros Hw. unfold handlerResponse, handlerEvents.
  destruct (NewFs E config ("gs:" +:+ gs G)) as [fsrc|e] eqn:Hs.
  - destruct (NewFs E config ("s3:" +:+ s3 G)) as [fdest|e] eqn:Hd.
    + exact (defaulthandler_sync E G config r w fsrc fdest Hw Hs Hd).
    + exact (defaulthandler_no_dest E G config r w fsrc e Hw Hs Hd).
  - exact (defaulthandler_no_source E G config r w e Hw Hs).
Qed.

(** X6.  The server [main] starts, over a router that serves [GET /] by
    calling the registered handler: a [GET /] whose token passes every
    check runs the sync handler exactly once; the response is 200 ["ok"]
    when both remotes are built and the sync succeeds and the 500 of
    [http.Error] otherwise; at most one sync is requested, and it is
    requested with the flag [false]. *)
Theorem X6_served_sync_request :
  forall (Getenv : string -> string) (FetchHTTP : string -> jwk.KeySet + error)
         (mux_Router : list Route -> Handler) (P : jwt.Parser gcpIdentityDoc)
         (E : Engine) (config0 : gmap (string * string) string)
         (g : Globals) (c : gmap (string * string) string) (srv : Server)
         (r : Request) pre t rest tok,
    main Getenv FetchHTTP mux_Router P E config0 = ListenAndServe g c srv ->
    serves_root mux_Router ->
    Method r = "GET" -> Path r = "/" ->
    strings.Split (Authorization r) "Bearer" = pre :: t :: rest ->
    passes_all_checks P g (strings.TrimSpace t) tok ->
    exists r',
      Method r' = "GET" /\ Path r' = "/" /\ Header r' = Header r /\
      ServerHandler srv r newWorld =
        (Returned tt,
         {| response := handlerResponse E g c r';
            trace := acceptedEvents r (jwt.Claims tok) ++ handlerEvents E g c r' |}) /\
      downstreamCalls (trace (snd (ServerHandler srv r newWorld))) = 1%nat /\
      (syncCalls (trace (snd (ServerHandler srv r newWorld))) <= 1)%nat /\
      (forall ctx fdst fsrc flag,
         In (SyncCall ctx fdst fsrc flag) (trace (snd (ServerHandler srv r newWorld))) ->
         ctx = Ctx r' /\ flag = false /\
         NewFs E c ("s3:" +:+ s3 g) = inl fdst /\
         NewFs E c ("gs:" +:+ gs g) = inl fsrc).
Proof.
  intros Getenv FetchHTTP mux_Router P E config0 g c srv r pre t rest tok
         Hm Hserve Hmeth Hpath Hs Hok.
  destruct (main_serving_state _ _ _ _ _ _ g c srv Hm)
    as (_ & _ & _ & _ & _ & _ & _ & _ & _ & _ & _ & _ & _ & ->).
  destruct (accepted_parse P g _ tok Hok) as (tok' & Hp & Hv & Hc).
  destruct (Hserve (defaulthandler E g c) (forwarded r (jwt.Claims tok))
              (logged newWorld (acceptedEvents r (jwt.Claims tok))) Hmeth Hpath)
    as (r' & Hm' & Hp' & Hh' & Hroute).
  exists r'.
  split; [rewrite Hm'; exact Hmeth|]. split; [rewrite Hp'; exact Hpath|].
  split; [rewrite Hh'; reflexivity|].
  assert (authMiddleware P g
            (mux_Router [ {| routeMethods := [http_MethodGet]; routePath := "/";
                             routeHandler := defaulthandler E g c |} ]) r newWorld =
          (Returned tt,
           {| response := handlerResponse E g c r';
              trace := acceptedEvents r (jwt.Claims tok) ++ handlerEvents E g c r' |}))
    as Hrun.
  { rewrite (auth_accepts_token P g _ r pre t rest tok' Hs Hp Hv), Hc.
    fold (acceptedEvents r (jwt.Claims tok)). rewrite Hroute.
    rewrite defaulthandler_fresh by reflexivity. reflexivity. }
  rewrite Hrun. cbn [snd trace]. split; [reflexivity|].
  unfold handlerEvents, downstreamCalls, syncCalls.
  destruct (NewFs E c ("gs:" +:+ gs g)) as [fsrc|e1];
    [destruct (NewFs E c ("s3:" +:+ s3 g)) as [fdest|e2]|].
  all: split; [reflexivity|]; split; [cbn; lia|].
  all: intros ctx fdst fsrc' flag Hin; cbn in Hin.
  all: repeat (destruct Hin as [Hin|Hin]; [try discriminate Hin|]); try contradiction.
  all: injection Hin as <- <- <- <-; repeat split; reflexivity.
Qed.

Lemma X6_served_sync_witness :
  exists g c srv,
    main fixture.envFull fixture.fetchOK fixture.router fixture.parser
         fixture.engine ∅ = ListenAndServe g c srv /\
    response (snd (ServerHandler srv
                     (fixture.request "GET" "/" ["Bearer hdr1.good.sig-k1"]) newWorld))
      = okResponse /\
    downstreamCalls
      (trace (snd (ServerHandler srv
                     (fixture.request "GET" "/" ["Bearer hdr1.good.sig-k1"]) newWorld)))
      = 1%nat.
Proof.
  eexists _, _, _. split; [reflexivity|].
  destruct (X6_served_sync_request fixture.envFull fixture.fetchOK fixture.router
              fixture.parser fixture.engine ∅ _ _ _
              (fixture.request "GET" "/" ["Bearer hdr1.good.sig-k1"])
              "" " hdr1.good.sig-k1" []
              (fixture.token "hdr1.good.sig-k1" (fixture.kid "K1")
                 (fixture.claims fixture.scheduler "https://elsewhere" 2000 0))
              eq_refl fixture_router_serves_root eq_refl eq_refl eq_refl)
    as (r' & _ & _ & _ & Hrun & Hd & _).
  { exists ("hdr1", "good", "sig-k1"), (jwt.Octets "k1").
    split; [reflexivity|]. split; [reflexivity|].
    split; [|reflexivity].
    split; [right; discriminate|]. split; left; reflexivity. }
  split; [|exact Hd]. rewrite Hrun. reflexivity.
Defined.

(** X9.  The decision of the middleware rests on the piece between the
    first and the second marker alone.  Two requests whose headers agree
    on that piece are both forwarded, with the same identity document, or
    both refused with the same error, whatever stands before the first
    marker (the scheme is not required to start the header) and whatever
    follows a second one. *)
Theorem X9_decision_by_second_piece :
  forall (P : jwt.Parser gcpIdentityDoc) (G : Globals) (r1 r2 : Request)
         pre1 pre2 t rest1 rest2,
    strings.Split (Authorization r1) "Bearer" = pre1 :: t :: rest1 ->
    strings.Split (Authorization r2) "Bearer" = pre2 :: t :: rest2 ->
    (exists idDoc,
       forall h,
         authMiddleware P G h r1 newWorld =
           h (forwarded r1 idDoc) (logged newWorld (acceptedEvents r1 idDoc)) /\
         authMiddleware P G h r2 newWorld =
           h (forwarded r2 idDoc) (logged newWorld (acceptedEvents r2 idDoc)))
    \/
    (exists out,
       forall h,
         authMiddleware P G h r1 newWorld = out /\
         authMiddleware P G h r2 newWorld = out /\
         response (snd out) = errorResponse http_StatusUnauthorized).
Proof.
  intros P G r1 r2 pre1 pre2 t rest1 rest2 H1 H2.
  destruct (jwt.ParseWithClaims P (strings.TrimSpace t) (getKey G)) as [tk [e|]] eqn:Hp.
  - right. eexists. intros h.
    rewrite (auth_rejects_token P G h r1 _ t rest1 tk e H1 Hp).
    rewrite (auth_rejects_token P G h r2 _ t rest2 tk e H2 Hp).
    split; [reflexivity|]. split; reflexivity.
  - left. destruct (ParseWithClaims_nil_error P (getKey G) _ tk Hp) as (tok & -> & Hv).
    exists (jwt.Claims tok). intros h.
    rewrite (auth_accepts_token P G h r1 _ t rest1 tok H1 Hp Hv).
    rewrite (auth_accepts_token P G h r2 _ t rest2 tok H2 Hp Hv).
    split; reflexivity.
Qed.

Lemma X9_decision_witness :
  fst (authMiddleware fixture.parser fixture.globals
         (defaulthandler fixture.engine fixture.globals ∅)
         (fixture.request "GET" "/" ["Basic abc Bearer hdr1.good.sig-k1 Bearer junk"])
         newWorld) = Returned tt /\
  downstreamCalls
    (trace (snd (authMiddleware fixture.parser fixture.globals
                   (defaulthandler fixture.engine fixture.globals ∅)
                   (fixture.request "GET" "/" ["Basic abc Bearer hdr1.good.sig-k1 Bearer junk"])
                   newWorld))) = 1%nat.
Proof.
  destruct (X9_decision_by_second_piece fixture.parser fixture.globals
              (fixture.request "GET" "/" ["Bearer hdr1.good.sig-k1 "])
              (fixture.request "GET" "/" ["Basic abc Bearer hdr1.good.sig-k1 Bearer junk"])
              "" "Basic abc " " hdr1.good.sig-k1 " [] [" junk"] eq_refl eq_refl)
    as [(idDoc & H) | (out & H)].
  - destruct (H (defaulthandler fixture.engine fixture.globals ∅)) as [_ ->].
    destruct (defaulthandler_trace fixture.engine fixture.globals ∅
                (forwarded (fixture.request "GET" "/"
                              ["Basic abc Bearer hdr1.good.sig-k1 Bearer junk"]) idDoc)
                (logged newWorld
                   (acceptedEvents (fixture.request "GET" "/"
                                      ["Basic abc Bearer hdr1.good.sig-k1 Bearer junk"]) idDoc)))
      as [Hf Ht].
    split; [exact Hf|]. rewrite Ht. reflexivity.
  - exfalso. destruct (H (defaulthandler fixture.engine fixture.globals ∅)) as (H1 & _ & _).
    vm_compute in H1. rewrite <- H1 in H. 
    destruct (H (fun _ => panic "probe")) as (H1' & _). vm_compute in H1'. discriminate H1'.
Defined.
